(** * Biblioteca: the loan and eligibility engine of [main.py]

    A shallow embedding of the [Biblioteca] class (catalog, roster, loan
    ledger, CSV persistence) and of the parts of Python's [datetime] it
    calls, followed by the properties of the loan lifecycle.

    Conventions of the embedding:
    - a Python [dict] is a [gmap]; iteration follows the map's own key
      order instead of insertion order;
    - a method becomes a function from the in-memory state and the files
      on disk to a [result]: the lines it prints together with the new
      state and files, or the exception that ends the process;
    - [datetime.now()] is an input: the k-th call made during one method
      call reads [agora k];
    - a text is the string of its UTF-8 bytes;
    - a CSV file is the list of rows that [csv.writer] writes and
      [csv.reader] gives back, every row a list of cells; reading fails
      at a cell longer than the reader's field size limit. *)

From Stdlib Require Import ZArith String Ascii List Lia Bool.
From Stdlib Require Import DecimalString DecimalZ DecimalPos.
From stdpp Require Import gmap strings list fin_maps.

Open Scope string_scope.
Open Scope list_scope.
Open Scope Z_scope.

(** ** The slice of [datetime] used by the program *)

Module Datetime.

(** Calendar arithmetic, as in CPython's [datetime] ([_ymd2ord],
    [_ord2ymd] and their tables). *)

Definition is_leap (year : Z) : bool :=
  (year mod 4 =? 0) && (negb (year mod 100 =? 0) || (year mod 400 =? 0)).

Definition days_before_year (year : Z) : Z :=
  let y := year - 1 in y * 365 + y / 4 - y / 100 + y / 400.

Definition DAYS_IN_MONTH (month : Z) : Z :=
  match month with
  | 1 => 31 | 2 => 28 | 3 => 31 | 4 => 30 | 5 => 31 | 6 => 30
  | 7 => 31 | 8 => 31 | 9 => 30 | 10 => 31 | 11 => 30 | 12 => 31
  | _ => -1
  end.

Definition DAYS_BEFORE_MONTH (month : Z) : Z :=
  match month with
  | 1 => 0 | 2 => 31 | 3 => 59 | 4 => 90 | 5 => 120 | 6 => 151
  | 7 => 181 | 8 => 212 | 9 => 243 | 10 => 273 | 11 => 304 | 12 => 334
  | _ => -1
  end.

Definition days_in_month (year month : Z) : Z :=
  if (month =? 2) && is_leap year then 29 else DAYS_IN_MONTH month.

Definition days_before_month (year month : Z) : Z :=
  DAYS_BEFORE_MONTH month + (if (month >? 2) && is_leap year then 1 else 0).

Definition ymd2ord (year month day : Z) : Z :=
  days_before_year year + days_before_month year month + day.

Definition DI400Y : Z := 146097.
Definition DI100Y : Z := 36524.
Definition DI4Y : Z := 1461.

(** The tail of [_ord2ymd]: month and day from the 0-based day of the
    year. *)
Definition month_day (leapyear : bool) (n : Z) : Z * Z :=
  let month := Z.shiftr (n + 50) 5 in
  let preceding :=
    DAYS_BEFORE_MONTH month + (if (month >? 2) && leapyear then 1 else 0) in
  if preceding >? n then
    let month := month - 1 in
    let preceding :=
      preceding
      - (DAYS_IN_MONTH month + (if (month =? 2) && leapyear then 1 else 0)) in
    (month, n - preceding + 1)
  else (month, n - preceding + 1).

Definition ord2ymd (n : Z) : Z * Z * Z :=
  let n := n - 1 in
  let n400 := n / DI400Y in
  let n := n mod DI400Y in
  let year := n400 * 400 + 1 in
  let n100 := n / DI100Y in
  let n := n mod DI100Y in
  let n4 := n / DI4Y in
  let n := n mod DI4Y in
  let n1 := n / 365 in
  let n := n mod 365 in
  let year := year + n100 * 100 + n4 * 4 + n1 in
  if (n1 =? 4) || (n100 =? 4) then (year - 1, 12, 31)
  else
    let leapyear := (n1 =? 3) && (negb (n4 =? 24) || (n100 =? 3)) in
    let '(month, day) := month_day leapyear n in
    (year, month, day).

(** Decimal digits of the ['%Y-%m-%d'] text, by their character codes
    (48 is the code of the digit zero). *)

Definition digit (k : Z) : ascii := ascii_of_N (Z.to_N (48 + k)).

Definition digit_value (c : ascii) : option Z :=
  let code := Z.of_N (N_of_ascii c) in
  if (48 <=? code) && (code <=? 57) then Some (code - 48) else None.

Definition fmt_02d (n : Z) : list ascii := [digit (n / 10); digit (n mod 10)].

Definition fmt_04d (n : Z) : list ascii :=
  [digit (n / 1000); digit (n / 100 mod 10)] ++ fmt_02d (n mod 100).

Definition isoformat (ymd : Z * Z * Z) : string :=
  let '(year, month, day) := ymd in
  string_of_list_ascii
    (fmt_04d year ++ ["-"%char] ++ fmt_02d month ++ ["-"%char] ++ fmt_02d day).

Definition number (ds : list ascii) : option Z :=
  foldl (fun acc c =>
           match acc, digit_value c with
           | Some a, Some d => Some (10 * a + d)
           | _, _ => None
           end) (Some 0) ds.

(** Splits a text of the shape [dddd-dd-dd] into its three numbers; any
    other text gives [None]. *)
Definition fromisoformat (s : string) : option (Z * Z * Z) :=
  match list_ascii_of_string s with
  | [y1; y2; y3; y4; s1; m1; m2; s2; d1; d2] =>
      if Ascii.eqb s1 "-" && Ascii.eqb s2 "-" then
        match number [y1; y2; y3; y4], number [m1; m2], number [d1; d2] with
        | Some year, Some month, Some day => Some (year, month, day)
        | _, _, _ => None
        end
      else None
  | _ => None
  end.

(** A naive [datetime] is the number of microseconds elapsed since
    0001-01-01T00:00:00, so that day [t / US_PER_DAY + 1] is its proleptic
    Gregorian ordinal.  The representable ones end with year 9999. *)

Definition US_PER_DAY : Z := 86400000000.
Definition MAXORDINAL : Z := 3652059.

Definition valid (t : Z) : Prop := 0 <= t < MAXORDINAL * US_PER_DAY.

#[global] Instance valid_dec t : Decision (valid t).
Proof. unfold valid. apply _. Defined.

Definition toordinal (t : Z) : Z := t / US_PER_DAY + 1.

(** Midnight opening the calendar day of [t]. *)
Definition midnight (t : Z) : Z := t / US_PER_DAY * US_PER_DAY.

(** [t.strftime('%Y-%m-%d')]; the year is printed on four digits, which
    is what Python prints from year 1000 on. *)
Definition strftime (t : Z) : string := isoformat (ord2ymd (toordinal t)).

(** [datetime.strptime(s, '%Y-%m-%d')]: midnight of the day written in
    [s], or [None] for the [ValueError] of a text that is not a date.
    Only the zero-padded ASCII shape printed by [strftime] is read; the
    looser spellings Python also accepts (['2024-3-8']) count as
    malformed here. *)
Definition strptime (s : string) : option Z :=
  match fromisoformat s with
  | Some (year, month, day) =>
      if (1 <=? year) && (1 <=? month) && (month <=? 12)
         && (1 <=? day) && (day <=? days_in_month year month)
      then Some ((ymd2ord year month day - 1) * US_PER_DAY)
      else None
  | None => None
  end.

(** [t + timedelta(days=days)], or [None] for the [OverflowError] of a
    result outside the representable range. *)
Definition add_days (t days : Z) : option Z :=
  let t' := t + days * US_PER_DAY in
  if decide (valid t') then Some t' else None.

(** [(a - b).days]: the whole days of a [timedelta], rounded down. *)
Definition delta_days (a b : Z) : Z := (a - b) / US_PER_DAY.

(** Builds the datetime of a calendar day and a time of day, for
    examples. *)
Definition at_time (year month day hour minute : Z) : Z :=
  (ymd2ord year month day - 1) * US_PER_DAY
  + (hour * 60 + minute) * 60000000.

(** Checker used to settle [month_day] over one whole year. *)
Definition month_day_ok (leapyear : bool) (n : Z) : bool :=
  let '(m, d) := month_day leapyear n in
  (1 <=? m) && (m <=? 12) && (1 <=? d)
  && (d <=? DAYS_IN_MONTH m + (if (m =? 2) && leapyear then 1 else 0))
  && (DAYS_BEFORE_MONTH m + (if (m >? 2) && leapyear then 1 else 0) + d
      =? n + 1).

End Datetime.

(** ** Python's [str(int)] and [int(str)] *)

(** [str(n)] for an [int]. *)
Definition str (n : Z) : string := NilZero.string_of_int (Z.to_int n).

(** [int(s)] for a [str]: [None] stands for [ValueError].  Decimal ASCII
    digits with an optional minus sign are read; Python's further
    spellings (a plus sign, surrounding blanks, underscores) are not. *)
Definition int (s : string) : option Z :=
  Z.of_int <$> NilZero.int_of_string s.

(** ** Records of the catalog and of the roster *)

Module Livro.

Record t := mk {
  titulo : string;
  autor : string;
  isbn : string;
  total_copias : Z;
  copias_disponiveis : Z
}.

(** [list(Livro.__init__.__code__.co_varnames)[1:]]. *)
Definition fieldnames : list string :=
  ["titulo"; "autor"; "isbn"; "total_copias"; "copias_disponiveis"].

(** The cells [csv.DictWriter] writes for [to_dict()], in the order of
    [fieldnames]; integers are written with [str]. *)
Definition to_row (l : t) : list string :=
  [titulo l; autor l; isbn l; str (total_copias l);
   str (copias_disponiveis l)].

(** The constructor called on a row of [csv.DictReader] unpacked into
    keywords: the keywords must be
    exactly the parameters of [__init__], and the two counts go through
    [int].  [None] when Python raises instead. *)
Definition from_kwargs (row : gmap string string) : option t :=
  if decide (dom row = list_to_set fieldnames) then
    total ← int (row !!! "total_copias");
    disponiveis ← int (row !!! "copias_disponiveis");
    Some (mk (row !!! "titulo") (row !!! "autor") (row !!! "isbn")
             total disponiveis)
  else None.

Definition set_total_copias (n : Z) (l : t) : t :=
  mk (titulo l) (autor l) (isbn l) n (copias_disponiveis l).

Definition set_copias_disponiveis (n : Z) (l : t) : t :=
  mk (titulo l) (autor l) (isbn l) (total_copias l) n.

End Livro.

Module Aluno.

Record t := mk {
  aluno_id : string;
  nome : string;
  banido : string
}.

Definition fieldnames : list string := ["aluno_id"; "nome"; "banido"].

Definition to_row (a : t) : list string := [aluno_id a; nome a; banido a].

(** The same for [Aluno]: [banido] may be left out and then defaults
    to ['Não']. *)
Definition from_kwargs (row : gmap string string) : option t :=
  if decide (dom row = list_to_set fieldnames) then
    Some (mk (row !!! "aluno_id") (row !!! "nome") (row !!! "banido"))
  else if decide (dom row = list_to_set ["aluno_id"; "nome"]) then
    Some (mk (row !!! "aluno_id") (row !!! "nome") "Não")
  else None.

Definition set_banido (v : string) (a : t) : t :=
  mk (aluno_id a) (nome a) v.

End Aluno.

(** ** Constants *)

Definition LIVROS_FILE : string := "livros.csv".
Definition ALUNOS_FILE : string := "alunos.csv".
Definition EMPRESTIMOS_FILE : string := "emprestimos.csv".
Definition DIAS_EMPRESTIMO : Z := 7.

(** ** State, files, output *)

(** [emprestimos] is [{isbn: {aluno_id: [data_emprestimo,
    data_vencimento]}}]; both dates are kept as the texts the program
    stores. *)
Record Biblioteca := mkBiblioteca {
  livros : gmap string Livro.t;
  alunos : gmap string Aluno.t;
  emprestimos : gmap string (gmap string (string * string))
}.

(** The files of the working directory by name; an absent name is a file
    that does not exist. *)
Abbreviation files := (gmap string (list (list string))).

Inductive status :=
| EmDia
| Atrasado (dias_atraso : Z).

(** The lines the methods print, without their wording. *)
Inductive msg :=
| Salvando
| DadosSalvos
| CopiasInvalidas
| CopiasAdicionadas (titulo : string) (total : Z)
| LivroAdicionado (titulo : string) (copias : Z)
| AlunoJaCadastrado (aluno_id : string)
| AlunoCadastrado (nome : string)
| AlunoNaoEncontrado (aluno_id : string)
| NaoPodeBanir (nome : string)
| AlunoBanido (nome aluno_id : string)
| AlunoDesbanido (nome aluno_id : string)
| LivroOuAlunoNaoEncontrado
| Bloqueado (nome : string)
| SemCopias (titulo : string)
| JaTemCopia (nome titulo : string)
| Emprestado (titulo nome : string)
| DevolucaoPrevista (data_vencimento : string)
| SemRegistro (isbn aluno_id : string)
| Atraso (dias_atraso : Z)
| AcaoRecomendada (nome : string)
| DentroDoPrazo
| Devolvido (titulo nome : string)
| NenhumEmprestimo
| CabecalhoRelatorio
| LinhaEmprestimo (titulo isbn nome aluno_id : string)
| LinhaStatus (data_vencimento : string) (st : status)
| RodapeRelatorio.

Inductive exn :=
| AttributeError
| ValueError
| OverflowError.

(** What a method call amounts to: it returns after printing [out],
    leaving the state [b] and the files [fs], or an exception escapes
    (nothing catches it, so the process ends there). *)
Inductive result :=
| Done (out : list msg) (b : Biblioteca) (fs : files)
| Raised (e : exn).

(** The error kinds of the specification, and the printed line that
    reports each. *)
Inductive erro :=
| NotFound
| DuplicateIdentifier
| HasOpenLoans
| BorrowerSuspended
| NoCopiesAvailable
| AlreadyHolding
| NoSuchLoan.

Definition erro_de_msg (m : msg) : option erro :=
  match m with
  | LivroOuAlunoNaoEncontrado | AlunoNaoEncontrado _ => Some NotFound
  | AlunoJaCadastrado _ => Some DuplicateIdentifier
  | NaoPodeBanir _ => Some HasOpenLoans
  | Bloqueado _ => Some BorrowerSuspended
  | SemCopias _ => Some NoCopiesAvailable
  | JaTemCopia _ _ => Some AlreadyHolding
  | SemRegistro _ _ => Some NoSuchLoan
  | _ => None
  end.

(** The errors a call reports, one per error line printed. *)
Definition erros (r : result) : list erro :=
  match r with
  | Done out _ _ => omap erro_de_msg out
  | Raised _ => []
  end.

Definition salvou (r : result) : Prop :=
  match r with
  | Done out _ _ => Salvando ∈ out
  | Raised _ => False
  end.

(** ** Persistence *)

Definition EMPRESTIMOS_HEADER : list string :=
  ["isbn"; "aluno_id"; "data_emprestimo"; "data_vencimento"].

Definition emprestimos_data
    (emprestimos : gmap string (gmap string (string * string)))
    : list (list string) :=
  '(isbn, alunos_emprestados) ← map_to_list emprestimos;
  '(aluno_id, datas) ← map_to_list alunos_emprestados;
  [[isbn; aluno_id; datas.1; datas.2]].

(** [salvar_dados]: the catalog and the roster are written only when
    not empty, the ledger always. *)
Definition salvar_dados (b : Biblioteca) (fs : files) : list msg * files :=
  let fs :=
    if decide (livros b = ∅) then fs
    else <[LIVROS_FILE :=
             Livro.fieldnames :: (Livro.to_row <$> (map_to_list (livros b)).*2)]> fs in
  let fs :=
    if decide (alunos b = ∅) then fs
    else <[ALUNOS_FILE :=
             Aluno.fieldnames :: (Aluno.to_row <$> (map_to_list (alunos b)).*2)]> fs in
  let fs :=
    <[EMPRESTIMOS_FILE :=
        EMPRESTIMOS_HEADER :: emprestimos_data (emprestimos b)]> fs in
  ([Salvando; DadosSalvos], fs).

(** [csv.DictReader] over the rows [csv.reader] yields: the first row
    names the columns, blank rows are skipped, every other row with as
    many cells as the header becomes a dictionary (a later column wins
    over an earlier one of the same name).  A row with more cells than
    the header gets the key [None], on which the constructor raises
    [TypeError].  A row with fewer cells gets the value [None] for the
    missing columns: the constructor then raises on a count, or builds a
    record holding [None] in place of a text.  The records of this model
    hold texts only, so it covers files of complete rows
    ([linhas_completas] below) and answers [None] to the others, for
    the exception as for the record it cannot hold. *)
Definition DictReader (rows : list (list string))
    : option (list (gmap string string)) :=
  match rows with
  | [] => Some []
  | fieldnames :: rest =>
      mapM (fun row =>
              if decide (length row = length fieldnames)
              then Some (list_to_map (reverse (zip fieldnames row)))
              else None)
           (filter (fun row => row ≠ []) rest)
  end.

Definition carregar_livros (rows : list (list string))
    : option (gmap string Livro.t) :=
  rows ← DictReader rows;
  foldl (fun acc row =>
           m ← acc;
           l ← Livro.from_kwargs row;
           Some (<[row !!! "isbn" := l]> m))
        (Some ∅) rows.

Definition carregar_alunos (rows : list (list string))
    : option (gmap string Aluno.t) :=
  rows ← DictReader rows;
  foldl (fun acc row =>
           m ← acc;
           a ← Aluno.from_kwargs row;
           Some (<[row !!! "aluno_id" := a]> m))
        (Some ∅) rows.

(** The ledger is read with a plain [csv.reader]: the first row is
    dropped and every other row must unpack into four cells. *)
Definition carregar_emprestimos (rows : list (list string))
    : option (gmap string (gmap string (string * string))) :=
  foldl (fun acc row =>
           m ← acc;
           match row with
           | [isbn; aluno_id; data_emprestimo; data_vencimento] =>
               Some (<[isbn := <[aluno_id := (data_emprestimo, data_vencimento)]>
                                 (default ∅ (m !! isbn))]> m)
           | _ => None
           end)
        (Some ∅) (tail rows).

(** [len(s)] for the Python text whose UTF-8 encoding is [s]: one per
    byte that does not continue a character (the bytes 128 to 191 do). *)
Fixpoint len (s : string) : N :=
  match s with
  | EmptyString => 0
  | String c s =>
      (if (128 <=? N_of_ascii c) && (N_of_ascii c <? 192) then 0 else 1)%N
      + len s
  end%N.

(** [csv.field_size_limit()]. *)
Definition FIELD_SIZE_LIMIT : N := 131072.

Definition celulas_curtas (rows : list (list string)) : Prop :=
  Forall (Forall (fun celula => (len celula <= FIELD_SIZE_LIMIT)%N)) rows.

#[global] Instance celulas_curtas_dec rows : Decision (celulas_curtas rows).
Proof. unfold celulas_curtas. apply _. Defined.

(** [csv.reader] over an open file: it yields the rows the writer was
    given, and raises [csv.Error] ([None]) at a cell of more than
    [FIELD_SIZE_LIMIT] characters, which the writer writes without
    complaint. *)
Definition csv_reader (rows : list (list string))
    : option (list (list string)) :=
  if decide (celulas_curtas rows) then Some rows else None.

(** One [if os.path.exists(...)] block of [_carregar_dados]: a file
    that is not there leaves the dictionary empty, a file that is there
    is read through [csv.reader] (also under [DictReader]). *)
Definition carregar_arquivo {A} (ler : list (list string) → option (gmap string A))
    (nome : string) (fs : files) : option (gmap string A) :=
  match fs !! nome with
  | Some rows => rows ← csv_reader rows; ler rows
  | None => Some ∅
  end.

(** [_carregar_dados], run by [Biblioteca()] on three empty
    dictionaries; [None] when the constructor does not complete. *)
Definition _carregar_dados (fs : files) : option Biblioteca :=
  ls ← carregar_arquivo carregar_livros LIVROS_FILE fs;
  als ← carregar_arquivo carregar_alunos ALUNOS_FILE fs;
  es ← carregar_arquivo carregar_emprestimos EMPRESTIMOS_FILE fs;
  Some (mkBiblioteca ls als es).

(** ** The methods of [Biblioteca] *)

Definition vazia : Biblioteca := mkBiblioteca ∅ ∅ ∅.

(** Ends a mutating method: [self.salvar_dados()] after the lines
    already printed. *)
Definition salvar_e_retornar (out : list msg) (b : Biblioteca) (fs : files)
    : result :=
  let '(out', fs') := salvar_dados b fs in Done (out ++ out') b fs'.

Definition adicionar_livro (titulo autor isbn : string) (copias : Z)
    (b : Biblioteca) (fs : files) : result :=
  match livros b !! isbn with
  | Some livro =>
      let livro :=
        Livro.set_total_copias (Livro.total_copias livro + copias) livro in
      let livro :=
        Livro.set_copias_disponiveis
          (Livro.copias_disponiveis livro + copias) livro in
      salvar_e_retornar
        [CopiasAdicionadas titulo (Livro.total_copias livro)]
        (mkBiblioteca (<[isbn := livro]> (livros b)) (alunos b) (emprestimos b))
        fs
  | None =>
      salvar_e_retornar
        [LivroAdicionado titulo copias]
        (mkBiblioteca (<[isbn := Livro.mk titulo autor isbn copias copias]> (livros b))
                      (alunos b) (emprestimos b))
        fs
  end.

Definition adicionar_aluno (aluno_id nome : string)
    (b : Biblioteca) (fs : files) : result :=
  if decide (is_Some (alunos b !! aluno_id)) then
    Done [AlunoJaCadastrado aluno_id] b fs
  else
    salvar_e_retornar
      [AlunoCadastrado nome]
      (mkBiblioteca (livros b)
                    (<[aluno_id := Aluno.mk aluno_id nome "Não"]> (alunos b))
                    (emprestimos b))
      fs.

(** [any(aluno_id in alunos for alunos in self.emprestimos.values())]. *)
Definition tem_emprestimo (aluno_id : string) (b : Biblioteca) : Prop :=
  map_Exists (fun _ alunos_emprestados => is_Some (alunos_emprestados !! aluno_id))
             (emprestimos b).

#[global] Instance tem_emprestimo_dec aluno_id b :
  Decision (tem_emprestimo aluno_id b).
Proof. unfold tem_emprestimo. apply _. Defined.

Definition banir_aluno (aluno_id : string) (b : Biblioteca) (fs : files)
    : result :=
  match alunos b !! aluno_id with
  | None => Done [AlunoNaoEncontrado aluno_id] b fs
  | Some aluno =>
      if decide (tem_emprestimo aluno_id b) then
        Done [NaoPodeBanir (Aluno.nome aluno)] b fs
      else
        salvar_e_retornar
          [AlunoBanido (Aluno.nome aluno) aluno_id]
          (mkBiblioteca (livros b)
                        (<[aluno_id := Aluno.set_banido "Sim" aluno]> (alunos b))
                        (emprestimos b))
          fs
  end.

Definition desbanir_aluno (aluno_id : string) (b : Biblioteca) (fs : files)
    : result :=
  match alunos b !! aluno_id with
  | None => Done [AlunoNaoEncontrado aluno_id] b fs
  | Some aluno =>
      salvar_e_retornar
        [AlunoDesbanido (Aluno.nome aluno) aluno_id]
        (mkBiblioteca (livros b)
                      (<[aluno_id := Aluno.set_banido "Não" aluno]> (alunos b))
                      (emprestimos b))
        fs
  end.

(** The ledger entry of a (book, borrower) pair:
    [self.emprestimos[isbn][aluno_id]] when both keys are there. *)
Definition emprestimo (isbn aluno_id : string) (b : Biblioteca)
    : option (string * string) :=
  emprestimos b !! isbn ≫= (.!! aluno_id).

(** [emprestar_livro]; the clock is read twice, first for the issue date
    and then for the due date. *)
Definition emprestar_livro (agora : nat → Z) (isbn aluno_id : string)
    (b : Biblioteca) (fs : files) : result :=
  match livros b !! isbn, alunos b !! aluno_id with
  | Some livro, Some aluno =>
      if decide (Aluno.banido aluno = "Sim") then
        Done [Bloqueado (Aluno.nome aluno)] b fs
      else if decide (Livro.copias_disponiveis livro <= 0) then
        Done [SemCopias (Livro.titulo livro)] b fs
      else if decide (is_Some (emprestimo isbn aluno_id b)) then
        Done [JaTemCopia (Aluno.nome aluno) (Livro.titulo livro)] b fs
      else
        let livro :=
          Livro.set_copias_disponiveis
            (Livro.copias_disponiveis livro - 1) livro in
        let data_emprestimo := Datetime.strftime (agora 0%nat) in
        match Datetime.add_days (agora 1%nat) DIAS_EMPRESTIMO with
        | None => Raised OverflowError
        | Some vencimento =>
            let data_vencimento := Datetime.strftime vencimento in
            let alunos_emprestados := default ∅ (emprestimos b !! isbn) in
            salvar_e_retornar
              [Emprestado (Livro.titulo livro) (Aluno.nome aluno);
               DevolucaoPrevista data_vencimento]
              (mkBiblioteca
                 (<[isbn := livro]> (livros b))
                 (alunos b)
                 (<[isbn := <[aluno_id := (data_emprestimo, data_vencimento)]>
                              alunos_emprestados]> (emprestimos b)))
              fs
        end
  | _, _ => Done [LivroOuAlunoNaoEncontrado] b fs
  end.

(** The overdue test shared by [devolver_livro] and
    [listar_emprestimos]: [now > due] on datetimes, then
    [(now - due).days].  [agora_dias] is the reading used for the count,
    the same as [agora] in [devolver_livro] and the next one in
    [listar_emprestimos]. *)
Definition checar_atraso (agora agora_dias data_vencimento : Z) : status :=
  if decide (agora > data_vencimento)
  then Atrasado (Datetime.delta_days agora_dias data_vencimento)
  else EmDia.

(** [devolver_livro].  [strptime] may raise on the stored text; a missing
    book or borrower record is [None] and raises at its first attribute
    access, before anything is saved. *)
Definition devolver_livro (agora : nat → Z) (isbn aluno_id : string)
    (b : Biblioteca) (fs : files) : result :=
  match emprestimo isbn aluno_id b with
  | None => Done [SemRegistro isbn aluno_id] b fs
  | Some datas =>
      match Datetime.strptime datas.2 with
      | None => Raised ValueError
      | Some data_vencimento =>
          let data_atual := agora 0%nat in
          match livros b !! isbn, alunos b !! aluno_id with
          | Some livro, Some aluno =>
              let aviso :=
                match checar_atraso data_atual data_atual data_vencimento with
                | Atrasado dias_atraso =>
                    [Atraso dias_atraso; AcaoRecomendada (Aluno.nome aluno)]
                | EmDia => [DentroDoPrazo]
                end in
              let alunos_emprestados :=
                delete aluno_id (default ∅ (emprestimos b !! isbn)) in
              let emprestimos' :=
                if decide (alunos_emprestados = ∅)
                then delete isbn (emprestimos b)
                else <[isbn := alunos_emprestados]> (emprestimos b) in
              let livro :=
                Livro.set_copias_disponiveis
                  (Livro.copias_disponiveis livro + 1) livro in
              salvar_e_retornar
                (aviso ++ [Devolvido (Livro.titulo livro) (Aluno.nome aluno)])
                (mkBiblioteca (<[isbn := livro]> (livros b)) (alunos b)
                              emprestimos')
                fs
          | _, _ => Raised AttributeError
          end
      end
  end.

(** One line pair of [listar_emprestimos] per ledger entry; [k] counts
    the clock readings made so far.  The clock is read once for the
    comparison and once more for the day count of an overdue loan. *)
Fixpoint relatorio (agora : nat → Z) (k : nat) (b : Biblioteca)
    (entradas : list (string * (string * (string * string))))
    : exn + list msg :=
  match entradas with
  | [] => inr []
  | (isbn, (aluno_id, datas)) :: entradas =>
      match Datetime.strptime datas.2 with
      | None => inl ValueError
      | Some data_vencimento =>
          let st := checar_atraso (agora k) (agora (S k)) data_vencimento in
          let k := match st with Atrasado _ => S (S k) | EmDia => S k end in
          match livros b !! isbn, alunos b !! aluno_id with
          | Some livro, Some aluno =>
              match relatorio agora k b entradas with
              | inr linhas =>
                  inr (LinhaEmprestimo (Livro.titulo livro) isbn
                                       (Aluno.nome aluno) aluno_id
                       :: LinhaStatus datas.2 st :: linhas)
              | inl e => inl e
              end
          | _, _ => inl AttributeError
          end
      end
  end.

(** The ledger flattened in iteration order: book, then borrower. *)
Definition entradas (b : Biblioteca)
    : list (string * (string * (string * string))) :=
  '(isbn, alunos_emprestados) ← map_to_list (emprestimos b);
  (fun e => (isbn, e)) <$> map_to_list alunos_emprestados.

(** [listar_emprestimos]: prints the report and changes nothing. *)
Definition listar_emprestimos (agora : nat → Z) (b : Biblioteca) (fs : files)
    : result :=
  if decide (emprestimos b = ∅) then Done [NenhumEmprestimo] b fs
  else
    match relatorio agora 0%nat b (entradas b) with
    | inr linhas =>
        Done ([CabecalhoRelatorio] ++ linhas ++ [RodapeRelatorio]) b fs
    | inl e => Raised e
    end.

(** ** Sessions *)

(** The commands of the menus that reach a mutating method, with the
    clock readings of the call where it reads the clock. *)
Inductive comando :=
| AdicionarLivro (titulo autor isbn : string) (copias : Z)
| AdicionarAluno (aluno_id nome : string)
| Banir (aluno_id : string)
| Desbanir (aluno_id : string)
| Emprestar (agora : nat → Z) (isbn aluno_id : string)
| Devolver (agora : nat → Z) (isbn aluno_id : string)
| Salvar.

(** The dispatch of the menus; [menu_livros] turns down a number of
    copies that is not positive before calling [adicionar_livro]. *)
Definition executar (c : comando) (b : Biblioteca) (fs : files) : result :=
  match c with
  | AdicionarLivro titulo autor isbn copias =>
      if decide (copias <= 0) then Done [CopiasInvalidas] b fs
      else adicionar_livro titulo autor isbn copias b fs
  | AdicionarAluno aluno_id nome => adicionar_aluno aluno_id nome b fs
  | Banir aluno_id => banir_aluno aluno_id b fs
  | Desbanir aluno_id => desbanir_aluno aluno_id b fs
  | Emprestar agora isbn aluno_id => emprestar_livro agora isbn aluno_id b fs
  | Devolver agora isbn aluno_id => devolver_livro agora isbn aluno_id b fs
  | Salvar => salvar_e_retornar [] b fs
  end.

(** States and files a session can be in, from the state [b0] built at
    start-up over the files [fs0]. *)
Inductive alcancavel (b0 : Biblioteca) (fs0 : files)
    : Biblioteca → files → Prop :=
| alcancavel_inicio : alcancavel b0 fs0 b0 fs0
| alcancavel_passo c b fs out b' fs' :
    alcancavel b0 fs0 b fs →
    executar c b fs = Done out b' fs' →
    alcancavel b0 fs0 b' fs'.


(** ** Vocabulary of the properties *)

(** The first session of all: no file on disk yet, so [Biblioteca()]
    starts from three empty dictionaries. *)
Definition sessao_inicial (b : Biblioteca) (fs : files) : Prop :=
  alcancavel vazia ∅ b fs.

(** The catalog file and the roster file hold complete rows: every row
    after the header has as many cells as the header, blank rows apart.
    [DictWriter] writes such rows, and [DictReader] makes of them
    dictionaries without [None] for a key or a value. *)
Definition linhas_completas (fs : files) : Prop :=
  ∀ nome fieldnames rows,
    nome = LIVROS_FILE ∨ nome = ALUNOS_FILE →
    fs !! nome = Some (fieldnames :: rows) →
    Forall (fun row => row = [] ∨ length row = length fieldnames) rows.

(** A session started by [Biblioteca()] over files of complete rows
    that it loads. *)
Definition sessao (b : Biblioteca) (fs : files) : Prop :=
  ∃ b0 fs0,
    linhas_completas fs0
    ∧ _carregar_dados fs0 = Some b0
    ∧ alcancavel b0 fs0 b fs.

(** Every cell that [salvar_dados] writes for [b] is within the field
    size limit of [csv.reader]: the texts of the records, the counts as
    [str] prints them, and the keys and dates of the ledger. *)
Definition cabe (b : Biblioteca) : Prop :=
  celulas_curtas (Livro.to_row <$> (map_to_list (livros b)).*2)
  ∧ celulas_curtas (Aluno.to_row <$> (map_to_list (alunos b)).*2)
  ∧ celulas_curtas (emprestimos_data (emprestimos b)).

#[global] Instance cabe_dec b : Decision (cabe b).
Proof. unfold cabe. apply _. Defined.

(** Number of open loans of a book. *)
Definition emprestimos_do_livro (isbn : string) (b : Biblioteca) : Z :=
  Z.of_nat (size (default ∅ (emprestimos b !! isbn))).

(** [0 <= available <= total] for every book. *)
Definition limites (b : Biblioteca) : Prop :=
  ∀ isbn livro,
    livros b !! isbn = Some livro →
    0 <= Livro.copias_disponiveis livro <= Livro.total_copias livro.

(** [available = total - open loans of the book] for every book. *)
Definition contabilidade (b : Biblioteca) : Prop :=
  ∀ isbn livro,
    livros b !! isbn = Some livro →
    Livro.copias_disponiveis livro
    = Livro.total_copias livro - emprestimos_do_livro isbn b.

(** Every book with a ledger entry is in the catalog. *)
Definition integridade (b : Biblioteca) : Prop :=
  ∀ isbn, is_Some (emprestimos b !! isbn) → is_Some (livros b !! isbn).

(** Every record sits under its own identifier. *)
Definition chaves (b : Biblioteca) : Prop :=
  (∀ k livro, livros b !! k = Some livro → Livro.isbn livro = k)
  ∧ (∀ k aluno, alunos b !! k = Some aluno → Aluno.aluno_id aluno = k).

(** The ledger holds no book with an empty dictionary of borrowers. *)
Definition sem_vazios (b : Biblioteca) : Prop :=
  ∀ isbn alunos_emprestados,
    emprestimos b !! isbn = Some alunos_emprestados →
    alunos_emprestados ≠ ∅.

(** An empty catalog or roster in memory has nothing on disk either:
    the file [salvar_dados] then leaves alone loads as empty. *)
Definition disco_coerente (b : Biblioteca) (fs : files) : Prop :=
  (livros b = ∅ → carregar_arquivo carregar_livros LIVROS_FILE fs = Some ∅)
  ∧ (alunos b = ∅ → carregar_arquivo carregar_alunos ALUNOS_FILE fs = Some ∅).

(** A call that ends normally is all-or-nothing: either it reports an
    error, leaves state and files as they were and does not save, or it
    reports none and ends with exactly one [salvar_dados] of the state
    it leaves. *)
Definition atomica (b : Biblioteca) (fs : files) (r : result) : Prop :=
  match r with
  | Raised _ => True
  | Done out b' fs' =>
      match erros r with
      | [] =>
          let salvo := salvar_dados b' fs in
          ∃ out', out = out' ++ salvo.1 ∧ (Salvando ∉ out') ∧ fs' = salvo.2
      | _ :: _ => b' = b ∧ fs' = fs ∧ ¬ salvou r
      end
  end.

(** The changes of state the methods make, each with the condition under
    which its method makes it. *)
Inductive mutacao (b : Biblioteca) : Biblioteca → Prop :=
| mutacao_reposicao isbn livro copias :
    livros b !! isbn = Some livro →
    0 < copias →
    mutacao b
      (mkBiblioteca
         (<[isbn := Livro.mk (Livro.titulo livro) (Livro.autor livro)
                             (Livro.isbn livro)
                             (Livro.total_copias livro + copias)
                             (Livro.copias_disponiveis livro + copias)]>
            (livros b))
         (alunos b) (emprestimos b))
| mutacao_livro_novo titulo autor isbn copias :
    livros b !! isbn = None →
    0 < copias →
    mutacao b
      (mkBiblioteca
         (<[isbn := Livro.mk titulo autor isbn copias copias]> (livros b))
         (alunos b) (emprestimos b))
| mutacao_cadastro aluno_id nome :
    alunos b !! aluno_id = None →
    mutacao b
      (mkBiblioteca
         (livros b)
         (<[aluno_id := Aluno.mk aluno_id nome "Não"]> (alunos b))
         (emprestimos b))
| mutacao_banido aluno_id aluno v :
    alunos b !! aluno_id = Some aluno →
    mutacao b
      (mkBiblioteca
         (livros b)
         (<[aluno_id := Aluno.set_banido v aluno]> (alunos b))
         (emprestimos b))
| mutacao_emprestimo isbn aluno_id livro datas :
    livros b !! isbn = Some livro →
    0 < Livro.copias_disponiveis livro →
    emprestimo isbn aluno_id b = None →
    mutacao b
      (mkBiblioteca
         (<[isbn := Livro.set_copias_disponiveis
                      (Livro.copias_disponiveis livro - 1) livro]>
            (livros b))
         (alunos b)
         (<[isbn := <[aluno_id := datas]> (default ∅ (emprestimos b !! isbn))]>
            (emprestimos b)))
| mutacao_devolucao isbn aluno_id livro datas :
    livros b !! isbn = Some livro →
    emprestimo isbn aluno_id b = Some datas →
    mutacao b
      (mkBiblioteca
         (<[isbn := Livro.set_copias_disponiveis
                      (Livro.copias_disponiveis livro + 1) livro]>
            (livros b))
         (alunos b)
         (if decide (delete aluno_id (default ∅ (emprestimos b !! isbn)) = ∅)
          then delete isbn (emprestimos b)
          else <[isbn := delete aluno_id (default ∅ (emprestimos b !! isbn))]>
                 (emprestimos b))).

(** ** States and clocks used in the examples *)

(** A clock that stands still at [t] during a call. *)
Definition relogio_fixo (t : Z) : nat → Z := fun _ => t.

(** A clock whose successive readings are the elements of [ts], and [t]
    from then on. *)
Definition relogio_de (ts : list Z) (t : Z) : nat → Z :=
  fun k => nth k ts t.

Definition livro_B1 : Livro.t :=
  Livro.mk "Dom Casmurro" "Machado de Assis" "B1" 1 1.

Definition aluno_S1 : Aluno.t := Aluno.mk "S1" "Ana" "Não".

(** One book with its single copy on the shelf, one active borrower. *)
Definition acervo_B1_S1 : Biblioteca :=
  mkBiblioteca {["B1" := livro_B1]} {["S1" := aluno_S1]} ∅.

(** The same after S1 borrowed B1 on 2024-03-01: due 2024-03-08. *)
Definition emprestado_B1_S1 : Biblioteca :=
  mkBiblioteca
    {["B1" := Livro.set_copias_disponiveis 0 livro_B1]}
    {["S1" := aluno_S1]}
    {["B1" := {["S1" := ("2024-03-01", "2024-03-08")]}]}.

(** Runs the commands one after the other; [None] when one of them
    raises. *)
Fixpoint executar_todos (cs : list comando) (b : Biblioteca) (fs : files)
    : option (Biblioteca * files) :=
  match cs with
  | [] => Some (b, fs)
  | c :: cs =>
      match executar c b fs with
      | Done _ b' fs' => executar_todos cs b' fs'
      | Raised _ => None
      end
  end.

(** The first session that leads to [emprestado_B1_S1]. *)
Definition roteiro_emprestimo : list comando :=
  [AdicionarLivro "Dom Casmurro" "Machado de Assis" "B1" 1;
   AdicionarAluno "S1" "Ana";
   Emprestar (relogio_fixo (Datetime.at_time 2024 3 1 10 30)) "B1" "S1"].

(** The files that session leaves on disk. *)
Definition arquivos_emprestimo : files :=
  match executar_todos roteiro_emprestimo vazia ∅ with
  | Some (_, fs) => fs
  | None => ∅
  end.

(** A first session with two borrowers: S1 borrows B1, S2 is banned. *)
Definition roteiro_banimento : list comando :=
  [AdicionarLivro "Dom Casmurro" "Machado de Assis" "B1" 2;
   AdicionarAluno "S1" "Ana";
   AdicionarAluno "S2" "Rui";
   Emprestar (relogio_fixo (Datetime.at_time 2024 3 1 10 30)) "B1" "S1";
   Banir "S2"].

(** The state and the files that session ends with. *)
Definition sessao_banimento : Biblioteca * files :=
  default (vazia, ∅) (executar_todos roteiro_banimento vazia ∅).


(** A ledger file written by hand, with no catalog and no roster file
    beside it. *)
Definition arquivos_orfaos : files :=
  {[ EMPRESTIMOS_FILE :=
       [EMPRESTIMOS_HEADER; ["B9"; "S9"; "2024-03-01"; "2024-03-08"]] ]}.

(** A title of 131073 characters, one more than [csv.reader] takes in
    a cell. *)
Definition titulo_longo : string :=
  Pos.iter (String "a") EmptyString 131073.

(** The catalog after [adicionar_livro(titulo, 'Anonimo', 'B1', 1)] on
    the empty state. *)
Definition acervo_titulo (titulo : string) : Biblioteca :=
  mkBiblioteca {["B1" := Livro.mk titulo "Anonimo" "B1" 1 1]} ∅ ∅.
(** ** Exact transitions *)

(** What one command does to the state when it changes it, with all the
    conditions the method tested and the values it stored. *)
Inductive transicao (b : Biblioteca) : Biblioteca → Prop :=
| transicao_reposicao isbn livro copias :
    livros b !! isbn = Some livro →
    0 < copias →
    transicao b
      (mkBiblioteca
         (<[isbn := Livro.mk (Livro.titulo livro) (Livro.autor livro)
                             (Livro.isbn livro)
                             (Livro.total_copias livro + copias)
                             (Livro.copias_disponiveis livro + copias)]>
            (livros b))
         (alunos b) (emprestimos b))
| transicao_livro_novo titulo autor isbn copias :
    livros b !! isbn = None →
    0 < copias →
    transicao b
      (mkBiblioteca
         (<[isbn := Livro.mk titulo autor isbn copias copias]> (livros b))
         (alunos b) (emprestimos b))
| transicao_cadastro aluno_id nome :
    alunos b !! aluno_id = None →
    transicao b
      (mkBiblioteca
         (livros b)
         (<[aluno_id := Aluno.mk aluno_id nome "Não"]> (alunos b))
         (emprestimos b))
| transicao_banir aluno_id aluno :
    alunos b !! aluno_id = Some aluno →
    ¬ tem_emprestimo aluno_id b →
    transicao b
      (mkBiblioteca
         (livros b)
         (<[aluno_id := Aluno.set_banido "Sim" aluno]> (alunos b))
         (emprestimos b))
| transicao_desbanir aluno_id aluno :
    alunos b !! aluno_id = Some aluno →
    transicao b
      (mkBiblioteca
         (livros b)
         (<[aluno_id := Aluno.set_banido "Não" aluno]> (alunos b))
         (emprestimos b))
| transicao_emprestimo isbn aluno_id livro aluno emprestado vencimento :
    livros b !! isbn = Some livro →
    alunos b !! aluno_id = Some aluno →
    Aluno.banido aluno ≠ "Sim" →
    0 < Livro.copias_disponiveis livro →
    emprestimo isbn aluno_id b = None →
    Datetime.valid vencimento →
    transicao b
      (mkBiblioteca
         (<[isbn := Livro.set_copias_disponiveis
                      (Livro.copias_disponiveis livro - 1) livro]>
            (livros b))
         (alunos b)
         (<[isbn := <[aluno_id := (Datetime.strftime emprestado,
                                   Datetime.strftime vencimento)]>
                      (default ∅ (emprestimos b !! isbn))]>
            (emprestimos b)))
| transicao_devolucao isbn aluno_id livro aluno datas data_vencimento :
    livros b !! isbn = Some livro →
    alunos b !! aluno_id = Some aluno →
    emprestimo isbn aluno_id b = Some datas →
    Datetime.strptime datas.2 = Some data_vencimento →
    transicao b
      (mkBiblioteca
         (<[isbn := Livro.set_copias_disponiveis
                      (Livro.copias_disponiveis livro + 1) livro]>
            (livros b))
         (alunos b)
         (if decide (delete aluno_id (default ∅ (emprestimos b !! isbn)) = ∅)
          then delete isbn (emprestimos b)
          else <[isbn := delete aluno_id (default ∅ (emprestimos b !! isbn))]>
                 (emprestimos b))).

(** Every ledger entry names a book of the catalog and a borrower of the
    roster, and its due date reads as a date. *)
Definition referencias (b : Biblioteca) : Prop :=
  ∀ isbn aluno_id datas,
    emprestimo isbn aluno_id b = Some datas →
    is_Some (livros b !! isbn)
    ∧ is_Some (alunos b !! aluno_id)
    ∧ is_Some (Datetime.strptime datas.2).

(** No banned borrower holds a loan. *)
Definition banidos_sem_emprestimos (b : Biblioteca) : Prop :=
  ∀ aluno_id aluno,
    alunos b !! aluno_id = Some aluno →
    Aluno.banido aluno = "Sim" →
    ¬ tem_emprestimo aluno_id b.

(** The catalog and roster of [b'] continue those of [b]: every record
    is still there, with its title, author and name, and no total has
    gone down. *)
Definition continua (b b' : Biblioteca) : Prop :=
  (∀ isbn livro,
     livros b !! isbn = Some livro →
     ∃ livro',
       livros b' !! isbn = Some livro'
       ∧ Livro.titulo livro' = Livro.titulo livro
       ∧ Livro.autor livro' = Livro.autor livro
       ∧ Livro.isbn livro' = Livro.isbn livro
       ∧ Livro.total_copias livro <= Livro.total_copias livro')
  ∧ (∀ aluno_id aluno,
       alunos b !! aluno_id = Some aluno →
       ∃ aluno',
         alunos b' !! aluno_id = Some aluno'
         ∧ Aluno.aluno_id aluno' = Aluno.aluno_id aluno
         ∧ Aluno.nome aluno' = Aluno.nome aluno).

(** ** The two plain listings *)

(** The lines [listar_livros] and [listar_alunos] print; a record line
    carries the fields that [__str__] shows. *)
Inductive linha :=
| NenhumLivro
| CabecalhoAcervo
| LinhaLivro (titulo autor isbn : string)
             (copias_disponiveis total_copias : Z)
| RodapeAcervo
| NenhumAluno
| CabecalhoAlunos
| LinhaAluno (aluno_id nome status : string)
| RodapeAlunos.

(** [Livro.__str__]. *)
Definition Livro_str (l : Livro.t) : linha :=
  LinhaLivro (Livro.titulo l) (Livro.autor l) (Livro.isbn l)
             (Livro.copias_disponiveis l) (Livro.total_copias l).

(** [Aluno.__str__]: the status shown is BANIDO when [banido] is
    ['Sim'] and Ativo for any other value. *)
Definition Aluno_str (a : Aluno.t) : linha :=
  LinhaAluno (Aluno.aluno_id a) (Aluno.nome a)
             (if decide (Aluno.banido a = "Sim") then "BANIDO" else "Ativo").

Definition listar_livros (b : Biblioteca) : list linha :=
  if decide (livros b = ∅) then [NenhumLivro]
  else [CabecalhoAcervo] ++ (Livro_str <$> (map_to_list (livros b)).*2)
       ++ [RodapeAcervo].

Definition listar_alunos (b : Biblioteca) : list linha :=
  if decide (alunos b = ∅) then [NenhumAluno]
  else [CabecalhoAlunos] ++ (Aluno_str <$> (map_to_list (alunos b)).*2)
       ++ [RodapeAlunos].


(** The number of loans of [isbn] that a printed report shows: its
    entry lines naming that book. *)
Fixpoint emprestimos_listados (isbn : string) (out : list msg) : nat :=
  match out with
  | [] => 0
  | LinhaEmprestimo _ i _ _ :: out =>
      (if decide (i = isbn) then 1 else 0) + emprestimos_listados isbn out
  | _ :: out => emprestimos_listados isbn out
  end.
(** * Properties *)

(** Settles a decidable closed statement by evaluation. *)
Ltac by_compute :=
  first [ vm_compute; reflexivity
        | apply (bool_decide_unpack _); vm_compute; exact I ].

Ltac by_decide := apply (bool_decide_unpack _); vm_compute; exact I.

(** ** Calendar and date texts *)

Section DatetimeFacts.
Import Datetime.

Lemma month_day_ok_all (leapyear : bool) (n : Z) :
  0 <= n < 365 + (if leapyear then 1 else 0) →
  month_day_ok leapyear n = true.
Proof.
  intros Hn.
  assert (Hall : forallb (fun k => month_day_ok leapyear (Z.of_nat k))
                         (seq 0 (if leapyear then 366 else 365)) = true).
  { destruct leapyear; vm_compute; reflexivity. }
  rewrite forallb_forall in Hall.
  rewrite <- (Z2Nat.id n) by lia.
  apply Hall, in_seq. destruct leapyear; lia.
Qed.

(** [_ymd2ord] undoes [_ord2ymd], which yields a well-formed date. *)
Lemma ymd2ord_ord2ymd (n : Z) :
  1 <= n →
  ∃ y m d,
    ord2ymd n = (y, m, d) ∧ ymd2ord y m d = n
    ∧ 1 <= m <= 12 ∧ 1 <= d <= days_in_month y m
    ∧ (n <= MAXORDINAL → 1 <= y <= 9999).
Proof.
  intros Hn. unfold ord2ymd, DI400Y, DI100Y, DI4Y, MAXORDINAL.
  set (n0 := n - 1).
  set (n400 := n0 / 146097). set (r := n0 mod 146097).
  set (n100 := r / 36524). set (r1 := r mod 36524).
  set (n4 := r1 / 1461). set (r2 := r1 mod 1461).
  set (n1 := r2 / 365). set (r3 := r2 mod 365).
  assert (E0 : n0 = 146097 * n400 + r ∧ 0 <= r < 146097).
  { subst n400 r.
    generalize (Z.div_mod n0 146097), (Z.mod_pos_bound n0 146097). lia. }
  assert (E1 : r = 36524 * n100 + r1 ∧ 0 <= r1 < 36524).
  { subst n100 r1.
    generalize (Z.div_mod r 36524), (Z.mod_pos_bound r 36524). lia. }
  assert (E2 : r1 = 1461 * n4 + r2 ∧ 0 <= r2 < 1461).
  { subst n4 r2.
    generalize (Z.div_mod r1 1461), (Z.mod_pos_bound r1 1461). lia. }
  assert (E3 : r2 = 365 * n1 + r3 ∧ 0 <= r3 < 365).
  { subst n1 r3.
    generalize (Z.div_mod r2 365), (Z.mod_pos_bound r2 365). lia. }
  assert (H0 : 0 <= n0) by (subst n0; lia).
  clearbody n400 r n100 r1 n4 r2 n1 r3.
  set (year := n400 * 400 + 1 + n100 * 100 + n4 * 4 + n1).
  destruct ((n1 =? 4) || (n100 =? 4)) eqn:Esp.
  - apply orb_true_iff in Esp. rewrite !Z.eqb_eq in Esp.
    assert (Hleap : is_leap (year - 1) = true).
    { unfold is_leap.
      assert (H4 : (year - 1) mod 4 = 0)
        by (unfold year; Z.to_euclidean_division_equations; lia).
      rewrite H4. simpl.
      destruct (Z.eqb_spec ((year - 1) mod 100) 0) as [H100|]; [|done].
      simpl. apply Z.eqb_eq.
      unfold year in *. Z.to_euclidean_division_equations. lia. }
    exists (year - 1), 12, 31.
    unfold ymd2ord, days_before_month, days_in_month. rewrite Hleap.
    simpl DAYS_BEFORE_MONTH. simpl DAYS_IN_MONTH.
    change ((12 >? 2) && true) with true.
    change ((12 =? 2) && true) with false. cbv iota.
    split; [done|].
    assert (Hy : days_before_year (year - 1) = n0 - 365).
    { unfold days_before_year, year.
      Z.to_euclidean_division_equations. lia. }
    rewrite Hy. unfold year. repeat split; lia.
  - apply orb_false_iff in Esp. rewrite !Z.eqb_neq in Esp.
    set (leap := (n1 =? 3) && (negb (n4 =? 24) || (n100 =? 3))).
    assert (Hleap : is_leap year = leap).
    { unfold is_leap, leap, year.
      destruct (Z.eqb_spec n1 3), (Z.eqb_spec n4 24), (Z.eqb_spec n100 3);
        simpl;
        repeat match goal with
               | |- context [ ?a =? 0 ] => destruct (Z.eqb_spec a 0)
               end; simpl; try reflexivity;
        exfalso; Z.to_euclidean_division_equations; lia. }
    pose proof (month_day_ok_all leap r3) as Hmd.
    unfold month_day_ok in Hmd. destruct (month_day leap r3) as [m d].
    rewrite !andb_true_iff, !Z.leb_le, Z.eqb_eq in Hmd.
    destruct Hmd as [[[[? ?] ?] ?] ?]; [destruct leap; lia|].
    exists year, m, d. split; [done|].
    unfold ymd2ord, days_before_month, days_in_month. rewrite Hleap.
    assert (Hdim : (if (m =? 2) && leap then 29 else DAYS_IN_MONTH m)
                   = DAYS_IN_MONTH m + (if (m =? 2) && leap then 1 else 0)).
    { destruct (Z.eqb_spec m 2); simpl;
        [subst m; destruct leap; reflexivity | lia]. }
    rewrite Hdim.
    assert (Hy : days_before_year year = n0 - r3).
    { unfold days_before_year, year.
      Z.to_euclidean_division_equations. lia. }
    rewrite Hy. unfold year. repeat split; lia.
Qed.

Lemma digit_value_digit (k : Z) :
  0 <= k <= 9 → digit_value (digit k) = Some k.
Proof.
  intros Hk.
  assert (Hc : k = 0 ∨ k = 1 ∨ k = 2 ∨ k = 3 ∨ k = 4 ∨ k = 5 ∨ k = 6
               ∨ k = 7 ∨ k = 8 ∨ k = 9) by lia.
  repeat destruct Hc as [-> | Hc]; try reflexivity. subst. reflexivity.
Qed.

Lemma number_two_digits (n : Z) :
  0 <= n < 100 → number [digit (n / 10); digit (n mod 10)] = Some n.
Proof.
  intros Hn. unfold number. simpl.
  rewrite !digit_value_digit by (Z.to_euclidean_division_equations; lia).
  f_equal. Z.to_euclidean_division_equations. lia.
Qed.

Lemma number_four_digits (n : Z) :
  0 <= n < 10000 →
  number [digit (n / 1000); digit (n / 100 mod 10);
          digit (n mod 100 / 10); digit (n mod 100 mod 10)] = Some n.
Proof.
  intros Hn. unfold number. simpl.
  rewrite !digit_value_digit by (Z.to_euclidean_division_equations; lia).
  f_equal. Z.to_euclidean_division_equations. lia.
Qed.

Lemma fromisoformat_isoformat (y m d : Z) :
  0 <= y < 10000 → 0 <= m < 100 → 0 <= d < 100 →
  fromisoformat (isoformat (y, m, d)) = Some (y, m, d).
Proof.
  intros Hy Hm Hd. unfold fromisoformat, isoformat.
  rewrite list_ascii_of_string_of_list_ascii.
  unfold fmt_04d, fmt_02d. cbn [app].
  change (Ascii.eqb "-" "-") with true. cbn [andb].
  rewrite number_four_digits, !number_two_digits by done. done.
Qed.

(** Reading back a printed date gives the midnight of its day. *)
Lemma strptime_strftime (t : Z) :
  valid t → strptime (strftime t) = Some (midnight t).
Proof.
  unfold valid, strftime, strptime, toordinal, midnight, US_PER_DAY.
  intros Ht.
  assert (Ho : 1 <= t / 86400000000 + 1 <= MAXORDINAL).
  { unfold MAXORDINAL in *. Z.to_euclidean_division_equations. lia. }
  destruct (ymd2ord_ord2ymd (t / 86400000000 + 1)) as
    (y & m & d & -> & Hord & Hm & Hd & Hy); [lia|].
  specialize (Hy (proj2 Ho)).
  assert (Hdim : days_in_month y m <= 31).
  { unfold days_in_month. destruct ((m =? 2) && is_leap y); [lia|].
    assert (Hc : m = 1 ∨ m = 2 ∨ m = 3 ∨ m = 4 ∨ m = 5 ∨ m = 6 ∨ m = 7
                 ∨ m = 8 ∨ m = 9 ∨ m = 10 ∨ m = 11 ∨ m = 12) by lia.
    repeat destruct Hc as [-> | Hc]; simpl; try lia. subst; simpl; lia. }
  rewrite fromisoformat_isoformat by lia.
  replace ((1 <=? y) && (1 <=? m) && (m <=? 12) && (1 <=? d)
           && (d <=? days_in_month y m)) with true.
  - rewrite Hord. f_equal. lia.
  - symmetry. rewrite !andb_true_iff, !Z.leb_le. lia.
Qed.

(** A parsed date is a midnight. *)
Lemma strptime_midnight (s : string) (t : Z) :
  strptime s = Some t → midnight t = t.
Proof.
  unfold strptime, midnight.
  destruct (fromisoformat s) as [[[y m] d]|]; [|done].
  case_match; [|done]. intros [= <-].
  unfold US_PER_DAY. rewrite Z.div_mul by lia. done.
Qed.

End DatetimeFacts.

(** ** [int] undoes [str] *)

Lemma int_str (n : Z) : int (str n) = Some n.
Proof.
  unfold int, str. rewrite NilZero.isi.
  - simpl. f_equal. apply DecimalZ.of_to.
  - destruct n; simpl; try discriminate.
    intros [= H]. revert H. apply DecimalPos.Unsigned.to_uint_nonnil.
  - destruct n; simpl; try discriminate.
    intros [= H]. revert H. apply DecimalPos.Unsigned.to_uint_nonnil.
Qed.

(** ** Shape of a call that saves *)

Lemma salvar_e_retornar_eq (out : list msg) (b : Biblioteca) (fs : files) :
  salvar_e_retornar out b fs
  = Done (out ++ [Salvando; DadosSalvos]) b (salvar_dados b fs).2.
Proof. reflexivity. Qed.

Lemma erros_salvar_e_retornar (out : list msg) (b : Biblioteca) (fs : files) :
  erros (salvar_e_retornar out b fs) = omap erro_de_msg out.
Proof.
  rewrite salvar_e_retornar_eq. simpl. rewrite omap_app. simpl.
  apply app_nil_r.
Qed.

(** ** Issue: the order of the checks *)

(** C1: [emprestar_livro] reports NotFound when the book or the borrower
    is unknown; otherwise BorrowerSuspended when the borrower is banned;
    otherwise NoCopiesAvailable when no copy is available (zero, or less);
    otherwise AlreadyHolding when the pair already has a loan; otherwise
    no error.  The checks run in that order and at most one error is
    reported. *)
Theorem emprestar_livro_validacoes
    (agora : nat → Z) (isbn aluno_id : string) (b : Biblioteca) (fs : files) :
  let r := emprestar_livro agora isbn aluno_id b fs in
  (livros b !! isbn = None ∨ alunos b !! aluno_id = None →
   erros r = [NotFound])
  ∧ (∀ livro aluno,
       livros b !! isbn = Some livro →
       alunos b !! aluno_id = Some aluno →
       (Aluno.banido aluno = "Sim" → erros r = [BorrowerSuspended])
       ∧ (Aluno.banido aluno ≠ "Sim" →
          Livro.copias_disponiveis livro <= 0 →
          erros r = [NoCopiesAvailable])
       ∧ (Aluno.banido aluno ≠ "Sim" →
          0 < Livro.copias_disponiveis livro →
          is_Some (emprestimo isbn aluno_id b) →
          erros r = [AlreadyHolding])
       ∧ (Aluno.banido aluno ≠ "Sim" →
          0 < Livro.copias_disponiveis livro →
          emprestimo isbn aluno_id b = None →
          erros r = []))
  ∧ (length (erros r) ≤ 1)%nat.
Proof.
  intros r. subst r. unfold emprestar_livro.
  destruct (livros b !! isbn) as [livro|] eqn:Hl;
    [destruct (alunos b !! aluno_id) as [aluno|] eqn:Ha|].
  2,3: by (split; [done|split; [intros ?? [=]; try intros [=]|simpl; lia]]).
  repeat case_decide;
    try (destruct (Datetime.add_days _ _);
         [rewrite erros_salvar_e_retornar|]);
    simpl; (split; [by intros [?|?]|]);
    (split; [intros ?? [= <-] [= <-]|lia]);
    repeat split; intros; try done; try lia.
  all: match goal with
       | H : ¬ is_Some ?x, H' : is_Some ?x |- _ => by destruct H
       | H : is_Some ?x, H' : ?x = None |- _ =>
           rewrite H' in H; by destruct H
       end.
Qed.

Lemma emprestar_livro_validacoes_witness :
  erros (emprestar_livro (relogio_fixo 0) "B2" "S1" emprestado_B1_S1 ∅)
  = [NotFound]
  ∧ erros (emprestar_livro (relogio_fixo 0) "B1" "S1" emprestado_B1_S1 ∅)
    = [NoCopiesAvailable].
Proof.
  split.
  - apply (emprestar_livro_validacoes
             (relogio_fixo 0) "B2" "S1" emprestado_B1_S1 ∅).
    left. by_compute.
  - eapply (emprestar_livro_validacoes
              (relogio_fixo 0) "B1" "S1" emprestado_B1_S1 ∅);
      by_compute.
Defined.

(** ** Ledger lookups after an update *)

Lemma emprestimo_insert (isbn aluno_id i a : string) (v : string * string)
    (ls : gmap string Livro.t) (als : gmap string Aluno.t)
    (es : gmap string (gmap string (string * string))) :
  emprestimo i a
    (mkBiblioteca ls als
       (<[isbn := <[aluno_id := v]> (default ∅ (es !! isbn))]> es))
  = if decide ((i, a) = (isbn, aluno_id)) then Some v
    else es !! i ≫= (.!! a).
Proof.
  unfold emprestimo. simpl.
  destruct (decide (i = isbn)) as [->|Hi].
  - rewrite lookup_insert_eq. simpl.
    destruct (decide (a = aluno_id)) as [->|Ha].
    + rewrite lookup_insert_eq. by rewrite decide_True.
    + rewrite lookup_insert_ne by done.
      rewrite decide_False by congruence.
      by destruct (es !! isbn).
  - rewrite lookup_insert_ne by done.
    by rewrite decide_False by congruence.
Qed.

Lemma emprestimo_delete (isbn aluno_id i a : string)
    (ls : gmap string Livro.t) (als : gmap string Aluno.t)
    (es : gmap string (gmap string (string * string))) :
  emprestimo i a
    (mkBiblioteca ls als
       (if decide (delete aluno_id (default ∅ (es !! isbn)) = ∅)
        then delete isbn es
        else <[isbn := delete aluno_id (default ∅ (es !! isbn))]> es))
  = if decide ((i, a) = (isbn, aluno_id)) then None
    else es !! i ≫= (.!! a).
Proof.
  unfold emprestimo. simpl.
  destruct (decide ((i, a) = (isbn, aluno_id))) as [[= -> ->]|Hne].
  { case_decide; [by rewrite lookup_delete_eq|].
    rewrite lookup_insert_eq. simpl. apply lookup_delete_eq. }
  destruct (decide (i = isbn)) as [->|Hi].
  - assert (Ha : a ≠ aluno_id) by congruence.
    case_decide as Hempty.
    + rewrite lookup_delete_eq. simpl.
      assert (Ha' : delete aluno_id (default ∅ (es !! isbn)) !! a = None)
        by (by rewrite Hempty).
      rewrite lookup_delete_ne in Ha' by done.
      destruct (es !! isbn); simpl in *; by rewrite ?Ha'.
    + rewrite lookup_insert_eq. simpl.
      rewrite lookup_delete_ne by done. by destruct (es !! isbn).
  - case_decide; by rewrite ?lookup_delete_ne, ?lookup_insert_ne.
Qed.

(** ** Issue: the effect of a successful call *)

(** Two moments of one calendar day print the same date, also seven
    days on. *)
Lemma strftime_mesmo_dia (t0 t1 days : Z) :
  Datetime.midnight t0 = Datetime.midnight t1 →
  Datetime.strftime (t0 + days * Datetime.US_PER_DAY)
  = Datetime.strftime (t1 + days * Datetime.US_PER_DAY)
  ∧ (Datetime.valid (t1 + days * Datetime.US_PER_DAY) →
     0 <= t0 →
     Datetime.valid (t0 + days * Datetime.US_PER_DAY)).
Proof.
  unfold Datetime.midnight, Datetime.strftime, Datetime.toordinal,
    Datetime.valid, Datetime.MAXORDINAL, Datetime.US_PER_DAY.
  intros Hdia.
  assert (Hq : t0 / 86400000000 = t1 / 86400000000) by lia.
  rewrite !Z.div_add by lia. rewrite Hq. split; [done|].
  intros Hv H0. Z.to_euclidean_division_equations. lia.
Qed.





(** ** Return *)



(** ** Suspend and reinstate *)

Lemma tem_emprestimo_iff (aluno_id : string) (b : Biblioteca) :
  tem_emprestimo aluno_id b ↔ ∃ isbn, is_Some (emprestimo isbn aluno_id b).
Proof.
  unfold tem_emprestimo, emprestimo. split.
  - intros (isbn & alunos_emprestados & Hl & Hs).
    exists isbn. by rewrite Hl.
  - intros (isbn & Hs).
    destruct (emprestimos b !! isbn) as [alunos_emprestados|] eqn:Hl;
      [|by destruct Hs].
    by exists isbn, alunos_emprestados.
Qed.



(** ** All-or-nothing calls *)

(** Closes the side conditions of [atomica_salvar] on the lines a method
    prints before saving. *)
Ltac antes_de_salvar :=
  first
    [ reflexivity
    | let H := fresh in
      intros H; simpl in H;
      repeat (apply elem_of_cons in H as [H|H]; [discriminate H|]);
      by apply elem_of_nil in H ].

Lemma atomica_erro (m : msg) (e : erro) (b : Biblioteca) (fs : files) :
  erro_de_msg m = Some e → atomica b fs (Done [m] b fs).
Proof.
  intros He. unfold atomica. simpl. rewrite He.
  split; [done|]. split; [done|].
  intros <-%list_elem_of_singleton. done.
Qed.

Lemma atomica_salvar (out : list msg) (b b' : Biblioteca) (fs : files) :
  omap erro_de_msg out = [] → Salvando ∉ out →
  atomica b fs (salvar_e_retornar out b' fs).
Proof.
  intros He Hs. pose proof (erros_salvar_e_retornar out b' fs) as Herr.
  rewrite salvar_e_retornar_eq in *. unfold atomica. rewrite Herr, He.
  by exists out.
Qed.

(** C10: a call of [adicionar_aluno], [banir_aluno], [desbanir_aluno],
    [emprestar_livro] or [devolver_livro] that reports an error leaves
    catalog, roster, ledger and files exactly as they were and does not
    save; a call that reports none, [adicionar_livro] included, ends
    with one [salvar_dados] of the state it leaves, and saves nowhere
    else. *)
Theorem operacoes_atomicas (b : Biblioteca) (fs : files) :
  (∀ titulo autor isbn copias,
     atomica b fs (adicionar_livro titulo autor isbn copias b fs))
  ∧ (∀ aluno_id nome, atomica b fs (adicionar_aluno aluno_id nome b fs))
  ∧ (∀ aluno_id, atomica b fs (banir_aluno aluno_id b fs))
  ∧ (∀ aluno_id, atomica b fs (desbanir_aluno aluno_id b fs))
  ∧ (∀ agora isbn aluno_id,
       atomica b fs (emprestar_livro agora isbn aluno_id b fs))
  ∧ (∀ agora isbn aluno_id,
       atomica b fs (devolver_livro agora isbn aluno_id b fs)).
Proof.
  repeat split; intros.
  - unfold adicionar_livro.
    case_match; apply atomica_salvar; antes_de_salvar.
  - unfold adicionar_aluno. case_decide;
      [by eapply atomica_erro|apply atomica_salvar; antes_de_salvar].
  - unfold banir_aluno. case_match; [case_decide|];
      try (by eapply atomica_erro); apply atomica_salvar; antes_de_salvar.
  - unfold desbanir_aluno. case_match;
      [apply atomica_salvar; antes_de_salvar|by eapply atomica_erro].
  - unfold emprestar_livro. repeat case_match;
      try (by eapply atomica_erro); try done.
    apply atomica_salvar; antes_de_salvar.
  - unfold devolver_livro. repeat case_match;
      try (by eapply atomica_erro); try done.
    all: apply atomica_salvar; antes_de_salvar.
Qed.

Lemma operacoes_atomicas_witness :
  atomica emprestado_B1_S1 ∅ (banir_aluno "S1" emprestado_B1_S1 ∅)
  ∧ erros (banir_aluno "S1" emprestado_B1_S1 ∅) = [HasOpenLoans]
  ∧ atomica emprestado_B1_S1 ∅ (desbanir_aluno "S1" emprestado_B1_S1 ∅)
  ∧ erros (desbanir_aluno "S1" emprestado_B1_S1 ∅) = [].
Proof.
  destruct (operacoes_atomicas emprestado_B1_S1 ∅)
    as (_ & _ & Hban & Hdes & _).
  split; [apply Hban|]. split; [by_compute|].
  split; [apply Hdes|by_compute].
Defined.

(** ** What a command can do to the state *)

(** A command that ends normally leaves the state as it was or makes one
    of the changes of [mutacao], and leaves the files as they were or as
    [salvar_dados] writes them from the new state. *)
Lemma executar_Done (c : comando) (b b' : Biblioteca) (fs fs' : files)
    (out : list msg) :
  executar c b fs = Done out b' fs' →
  (b' = b ∨ mutacao b b') ∧ (fs' = fs ∨ fs' = (salvar_dados b' fs).2).
Proof.
  destruct c as [titulo autor isbn copias|aluno_id nome|aluno_id|aluno_id
                |agora isbn aluno_id|agora isbn aluno_id|]; unfold executar.
  - case_decide; [intros [= <- <- <-]; auto|].
    unfold adicionar_livro.
    destruct (livros b !! isbn) as [livro|] eqn:Hl;
      rewrite salvar_e_retornar_eq; intros [= <- <- <-];
      (split; [right|by right]).
    + by apply (mutacao_reposicao b isbn livro copias); [|lia].
    + by apply mutacao_livro_novo; [|lia].
  - unfold adicionar_aluno. case_decide as Ha; [intros [= <- <- <-]; auto|].
    rewrite salvar_e_retornar_eq. intros [= <- <- <-].
    split; [right|by right].
    apply mutacao_cadastro. by apply eq_None_not_Some.
  - unfold banir_aluno.
    destruct (alunos b !! aluno_id) as [aluno|] eqn:Ha;
      [case_decide|]; try (intros [= <- <- <-]; by auto).
    rewrite salvar_e_retornar_eq. intros [= <- <- <-].
    split; [right|by right]. by apply mutacao_banido.
  - unfold desbanir_aluno.
    destruct (alunos b !! aluno_id) as [aluno|] eqn:Ha;
      [|intros [= <- <- <-]; by auto].
    rewrite salvar_e_retornar_eq. intros [= <- <- <-].
    split; [right|by right]. by apply mutacao_banido.
  - unfold emprestar_livro.
    destruct (livros b !! isbn) as [livro|] eqn:Hl;
      [destruct (alunos b !! aluno_id) as [aluno|] eqn:Ha|];
      try (intros [= <- <- <-]; by auto).
    repeat case_decide; try (intros [= <- <- <-]; by auto).
    destruct (Datetime.add_days _ _); [|done].
    rewrite salvar_e_retornar_eq. intros [= <- <- <-].
    split; [right|by right].
    apply mutacao_emprestimo; [done|lia|by apply eq_None_not_Some].
  - unfold devolver_livro.
    destruct (emprestimo isbn aluno_id b) as [datas|] eqn:He;
      [|intros [= <- <- <-]; by auto].
    destruct (Datetime.strptime _); [|done].
    destruct (livros b !! isbn) as [livro|] eqn:Hl; [|done].
    destruct (alunos b !! aluno_id) as [aluno|] eqn:Ha; [|done].
    rewrite salvar_e_retornar_eq. intros [= <- <- <-].
    split; [right|by right]. by eapply mutacao_devolucao.
  - rewrite salvar_e_retornar_eq. intros [= <- <- <-]. auto.
Qed.

(** ** Copy counts *)

Lemma emprestimos_do_livro_insert (isbn i aluno_id : string)
    (datas : string * string) (b : Biblioteca)
    (ls : gmap string Livro.t) (als : gmap string Aluno.t) :
  emprestimo isbn aluno_id b = None →
  emprestimos_do_livro i
    (mkBiblioteca ls als
       (<[isbn := <[aluno_id := datas]> (default ∅ (emprestimos b !! isbn))]>
          (emprestimos b)))
  = emprestimos_do_livro i b + (if decide (i = isbn) then 1 else 0).
Proof.
  intros He. unfold emprestimos_do_livro. simpl.
  destruct (decide (i = isbn)) as [->|Hi].
  - rewrite lookup_insert_eq. simpl.
    rewrite map_size_insert_None; [lia|].
    unfold emprestimo in He. by destruct (emprestimos b !! isbn).
  - rewrite lookup_insert_ne by done. lia.
Qed.

Lemma emprestimos_do_livro_delete (isbn i aluno_id : string)
    (datas : string * string) (b : Biblioteca)
    (ls : gmap string Livro.t) (als : gmap string Aluno.t) :
  emprestimo isbn aluno_id b = Some datas →
  emprestimos_do_livro i
    (mkBiblioteca ls als
       (if decide (delete aluno_id (default ∅ (emprestimos b !! isbn)) = ∅)
        then delete isbn (emprestimos b)
        else <[isbn := delete aluno_id (default ∅ (emprestimos b !! isbn))]>
               (emprestimos b)))
  = emprestimos_do_livro i b - (if decide (i = isbn) then 1 else 0).
Proof.
  intros He. unfold emprestimos_do_livro. simpl.
  unfold emprestimo in He.
  destruct (emprestimos b !! isbn) as [inner|] eqn:Hi; [|done].
  simpl in *.
  assert (Hsize : size (delete aluno_id inner) = pred (size inner))
    by (apply map_size_delete_Some; eauto).
  assert (Hpos : size inner ≠ 0%nat).
  { apply map_size_non_empty_iff. intros ->. by rewrite lookup_empty in He. }
  destruct (decide (i = isbn)) as [->|Hne].
  - case_decide as Hempty.
    + rewrite lookup_delete_eq, Hi. simpl.
      rewrite Hempty, map_size_empty in Hsize. rewrite map_size_empty. lia.
    + rewrite lookup_insert_eq, Hi. simpl. lia.
  - case_decide; rewrite ?lookup_delete_ne, ?lookup_insert_ne by done; lia.
Qed.

(** The accounting equality is kept by every change of state, on states
    whose ledger names catalog books only (which is kept as well). *)
Lemma mutacao_contabilidade (b b' : Biblioteca) :
  mutacao b b' →
  contabilidade b ∧ integridade b →
  contabilidade b' ∧ integridade b'.
Proof.
  intros Hm (Hc & Hi).
  destruct Hm as [isbn livro copias Hl Hpos
                 |titulo autor isbn copias Hl Hpos
                 |aluno_id nome Ha
                 |aluno_id aluno v Ha
                 |isbn aluno_id livro datas Hl Hpos He
                 |isbn aluno_id livro datas Hl He].
  - split.
    + intros i l. simpl. rewrite lookup_insert. case_decide as Hk.
      * subst i. intros [= <-]. simpl.
        specialize (Hc _ _ Hl). unfold emprestimos_do_livro in *.
        simpl. lia.
      * apply Hc.
    + intros i Hs. simpl. rewrite lookup_insert. case_decide; [eauto|].
      by apply Hi.
  - split.
    + intros i l. simpl. rewrite lookup_insert. case_decide as Hk.
      * subst i. intros [= <-]. simpl.
        unfold emprestimos_do_livro. simpl.
        destruct (emprestimos b !! isbn) eqn:Hei.
        { destruct (Hi isbn) as [? Hsome]; [eauto|]. congruence. }
        simpl. rewrite map_size_empty. lia.
      * apply Hc.
    + intros i Hs. simpl. rewrite lookup_insert. case_decide; [eauto|].
      by apply Hi.
  - done.
  - done.
  - split.
    + intros i l Hil. rewrite emprestimos_do_livro_insert by done.
      simpl in Hil. rewrite lookup_insert in Hil.
      destruct (decide (isbn = i)) as [->|Hne].
      * injection Hil as <-. simpl. rewrite decide_True by done.
        specialize (Hc _ _ Hl). lia.
      * rewrite decide_False by done. specialize (Hc _ _ Hil). lia.
    + intros i. simpl. rewrite !lookup_insert.
      case_decide; [eauto|]. apply Hi.
  - split.
    + intros i l Hil. erewrite emprestimos_do_livro_delete by done.
      simpl in Hil. rewrite lookup_insert in Hil.
      destruct (decide (isbn = i)) as [->|Hne].
      * injection Hil as <-. simpl. rewrite decide_True by done.
        specialize (Hc _ _ Hl). lia.
      * rewrite decide_False by done. specialize (Hc _ _ Hil). lia.
    + intros i. simpl. rewrite lookup_insert.
      destruct (decide (isbn = i)) as [->|Hne]; [eauto|].
      case_decide; rewrite ?lookup_delete_ne, ?lookup_insert_ne by done;
        apply Hi.
Qed.

(** No change of state makes an available count negative. *)
Lemma mutacao_nao_negativo (b b' : Biblioteca) :
  mutacao b b' →
  (∀ isbn livro, livros b !! isbn = Some livro →
                 0 <= Livro.copias_disponiveis livro) →
  ∀ isbn livro, livros b' !! isbn = Some livro →
                0 <= Livro.copias_disponiveis livro.
Proof.
  intros Hm Hp.
  destruct Hm as [isbn livro copias Hl Hpos
                 |titulo autor isbn copias Hl Hpos
                 |aluno_id nome Ha
                 |aluno_id aluno v Ha
                 |isbn aluno_id livro datas Hl Hpos He
                 |isbn aluno_id livro datas Hl He];
    try done; intros i l; simpl; rewrite lookup_insert;
    (case_decide; [intros [= <-]; simpl|apply Hp]);
    try specialize (Hp _ _ Hl); lia.
Qed.

Lemma sessao_inicial_contabilidade (b : Biblioteca) (fs : files) :
  sessao_inicial b fs →
  (contabilidade b ∧ integridade b)
  ∧ (∀ isbn livro, livros b !! isbn = Some livro →
                   0 <= Livro.copias_disponiveis livro).
Proof.
  unfold sessao_inicial.
  induction 1 as [|c b fs out b' fs' _ [IHc IHp] Hex].
  - unfold contabilidade, integridade. simpl.
    repeat split; intros *; rewrite lookup_empty; try done; by intros [??].
  - apply executar_Done in Hex as [[->|Hm] _]; [done|].
    split; [by eapply mutacao_contabilidade|by eapply mutacao_nao_negativo].
Qed.

Lemma contabilidade_limite_superior (b : Biblioteca) :
  contabilidade b →
  ∀ isbn livro,
    livros b !! isbn = Some livro →
    Livro.copias_disponiveis livro <= Livro.total_copias livro.
Proof.
  intros Hc isbn livro Hl. specialize (Hc _ _ Hl).
  unfold emprestimos_do_livro in Hc. lia.
Qed.

Lemma executar_todos_alcancavel (cs : list comando) (b0 b b' : Biblioteca)
    (fs0 fs fs' : files) :
  alcancavel b0 fs0 b fs →
  executar_todos cs b fs = Some (b', fs') →
  alcancavel b0 fs0 b' fs'.
Proof.
  revert b fs. induction cs as [|c cs IH]; intros b fs Hb; simpl.
  - by intros [= <- <-].
  - destruct (executar c b fs) as [out b1 fs1|] eqn:Hex; [|done].
    apply IH. by eapply alcancavel_passo.
Qed.

(** The example state is a state of a first session. *)
Lemma roteiro_emprestimo_alcancavel :
  sessao_inicial emprestado_B1_S1 arquivos_emprestimo.
Proof.
  eapply executar_todos_alcancavel with (cs := roteiro_emprestimo);
    [apply alcancavel_inicio|].
  vm_compute. reflexivity.
Qed.

(** C3: in every state reached from the empty state by the commands of
    the menus (restocking with a positive number of copies) every book
    has [0 <= available <= total]. *)
Theorem limites_sessao_inicial (b : Biblioteca) (fs : files) :
  sessao_inicial b fs → limites b.
Proof.
  intros Hs isbn livro Hl.
  destruct (sessao_inicial_contabilidade b fs Hs) as [[Hc _] Hp].
  split; [by eapply Hp|by eapply contabilidade_limite_superior].
Qed.

Lemma limites_sessao_inicial_witness : limites emprestado_B1_S1.
Proof.
  exact (limites_sessao_inicial emprestado_B1_S1 arquivos_emprestimo
           roteiro_emprestimo_alcancavel).
Defined.

(** C9: in every state reached from the empty state every book has
    [available = total - open loans of the book]; every command keeps
    that equality (on states whose ledger names catalog books only, as
    all those states do); the equality bounds [available] by [total],
    and with the counts never negative gives [0 <= available <= total]. *)
Theorem contabilidade_sessao_inicial :
  (∀ b fs, sessao_inicial b fs → contabilidade b ∧ integridade b ∧ limites b)
  ∧ (∀ c b fs out b' fs',
       contabilidade b → integridade b →
       executar c b fs = Done out b' fs' →
       contabilidade b' ∧ integridade b')
  ∧ (∀ b, contabilidade b →
          ∀ isbn livro,
            livros b !! isbn = Some livro →
            Livro.copias_disponiveis livro <= Livro.total_copias livro).
Proof.
  split; [|split].
  - intros b fs Hs.
    destruct (sessao_inicial_contabilidade b fs Hs) as [[Hc Hi] Hp].
    repeat split; try done; [by eapply Hp|].
    by eapply contabilidade_limite_superior.
  - intros c b fs out b' fs' Hc Hi Hex.
    apply executar_Done in Hex as [[->|Hm] _]; [done|].
    by eapply mutacao_contabilidade.
  - apply contabilidade_limite_superior.
Qed.

Lemma contabilidade_sessao_inicial_witness :
  contabilidade emprestado_B1_S1
  ∧ emprestimos_do_livro "B1" emprestado_B1_S1 = 1.
Proof.
  split; [|reflexivity].
  exact (proj1 (proj1 contabilidade_sessao_inicial
                  emprestado_B1_S1 arquivos_emprestimo
                  roteiro_emprestimo_alcancavel)).
Defined.

(** ** Overdue status *)

(** The test of [devolver_livro] on a due date read from the ledger: the
    return is late exactly when the clock is past the midnight that opens
    the due day, and the count is the whole days since that midnight. *)
Lemma checar_atraso_spec (now data_vencimento : Z) :
  checar_atraso now now data_vencimento
  = if decide (data_vencimento < now)
    then Atrasado ((now - data_vencimento) / Datetime.US_PER_DAY)
    else EmDia.
Proof.
  unfold checar_atraso, Datetime.delta_days.
  destruct (decide (now > data_vencimento)), (decide (data_vencimento < now));
    try done; lia.
Qed.

(** A return on day 10 of a loan made on day 0, due on day 7, is three
    days late at any time of the day. *)
Lemma checar_atraso_dia_10 (emprestado now : Z) :
  Datetime.midnight now
  = Datetime.midnight emprestado + 10 * Datetime.US_PER_DAY →
  checar_atraso now now
    (Datetime.midnight emprestado + DIAS_EMPRESTIMO * Datetime.US_PER_DAY)
  = Atrasado 3.
Proof.
  unfold Datetime.midnight, DIAS_EMPRESTIMO, Datetime.US_PER_DAY.
  intros H. rewrite checar_atraso_spec. unfold Datetime.US_PER_DAY.
  case_decide as Hlate; [f_equal|]; Z.to_euclidean_division_equations; lia.
Qed.

(** On the due day itself the return is on time at midnight sharp only:
    at any later time of that day it is flagged late, by zero days. *)
Lemma checar_atraso_dia_do_vencimento (now data_vencimento : Z) :
  Datetime.midnight data_vencimento = data_vencimento →
  Datetime.midnight now = data_vencimento →
  checar_atraso now now data_vencimento
  = if decide (now = data_vencimento) then EmDia else Atrasado 0.
Proof.
  unfold Datetime.midnight, Datetime.US_PER_DAY.
  intros Hv Hn. rewrite checar_atraso_spec. unfold Datetime.US_PER_DAY.
  destruct (decide (now = data_vencimento)) as [->|Hne].
  - by rewrite decide_False by lia.
  - case_decide as Hlate; [f_equal|];
      Z.to_euclidean_division_equations; lia.
Qed.

(** What [devolver_livro] prints for a loan on record. *)
Lemma devolver_livro_aviso (agora : nat → Z) (isbn aluno_id : string)
    (b : Biblioteca) (fs : files) (datas : string * string)
    (data_vencimento : Z) (livro : Livro.t) (aluno : Aluno.t) :
  emprestimo isbn aluno_id b = Some datas →
  Datetime.strptime datas.2 = Some data_vencimento →
  livros b !! isbn = Some livro →
  alunos b !! aluno_id = Some aluno →
  ∃ b' fs',
    devolver_livro agora isbn aluno_id b fs
    = Done
        (match checar_atraso (agora 0%nat) (agora 0%nat) data_vencimento with
         | EmDia => [DentroDoPrazo]
         | Atrasado dias_atraso =>
             [Atraso dias_atraso; AcaoRecomendada (Aluno.nome aluno)]
         end
         ++ [Devolvido (Livro.titulo livro) (Aluno.nome aluno);
             Salvando; DadosSalvos])
        b' fs'.
Proof.
  intros He Hp Hl Ha. unfold devolver_livro. rewrite He, Hp, Hl, Ha.
  rewrite salvar_e_retornar_eq. rewrite <- app_assoc. eauto.
Qed.

(** With the clock standing at [now], every status line of the listing
    is the test of [devolver_livro] on the due date it shows. *)
Lemma relatorio_status (now : Z) (k : nat) (b : Biblioteca)
    (es : list (string * (string * (string * string)))) (linhas : list msg) :
  relatorio (relogio_fixo now) k b es = inr linhas →
  ∀ texto st,
    LinhaStatus texto st ∈ linhas →
    ∃ data_vencimento,
      Datetime.strptime texto = Some data_vencimento
      ∧ st = checar_atraso now now data_vencimento.
Proof.
  revert k linhas.
  induction es as [|[isbn [aluno_id datas]] es IH]; intros k linhas; simpl.
  - intros [= <-] ?? Hin. by apply elem_of_nil in Hin.
  - destruct (Datetime.strptime datas.2) as [dv|] eqn:Hp; [|done].
    destruct (livros b !! isbn), (alunos b !! aluno_id); try done.
    destruct (relatorio _ _ _ es) as [|resto] eqn:Hr; [done|].
    intros [= <-] texto st Hin.
    apply elem_of_cons in Hin as [[=]|Hin].
    apply elem_of_cons in Hin as [[= -> ->]|Hin]; [by eauto|].
    by eapply IH.
Qed.

(** C4, at the point where the code departs from it: S1 holds B1, due
    2024-03-08, and returns it on 2024-03-08 at 10:00.  The day of the
    return is the due day, yet the return is flagged late,
    with zero days of delay; [listar_emprestimos] at the same moment
    shows the same status. *)
Theorem devolver_livro_no_dia_do_vencimento :
  let agora := relogio_fixo (Datetime.at_time 2024 3 8 10 0) in
  emprestimo "B1" "S1" emprestado_B1_S1 = Some ("2024-03-01", "2024-03-08")
  ∧ Datetime.strftime (agora 0%nat) = "2024-03-08"
  ∧ (∃ b' fs',
       devolver_livro agora "B1" "S1" emprestado_B1_S1 ∅
       = Done [Atraso 0; AcaoRecomendada "Ana";
               Devolvido "Dom Casmurro" "Ana"; Salvando; DadosSalvos]
              b' fs')
  ∧ listar_emprestimos agora emprestado_B1_S1 ∅
    = Done [CabecalhoRelatorio;
            LinhaEmprestimo "Dom Casmurro" "B1" "Ana" "S1";
            LinhaStatus "2024-03-08" (Atrasado 0);
            RodapeRelatorio]
           emprestado_B1_S1 ∅.
Proof.
  intros agora. split; [by_compute|]. split; [by_compute|].
  split; [|by_compute].
  eexists _, _. by_compute.
Qed.

(** ** The clock *)

(** [relatorio] looks at two readings per entry at most, from reading
    [k] on. *)
Lemma relatorio_leituras (agora agora' : nat → Z) (b : Biblioteca)
    (es : list (string * (string * (string * string)))) (k : nat) :
  (∀ j, (k ≤ j < k + 2 * length es)%nat → agora j = agora' j) →
  relatorio agora k b es = relatorio agora' k b es.
Proof.
  revert k. induction es as [|[isbn [aluno_id datas]] es IH]; intros k Hk;
    [done|].
  simpl in *. destruct (Datetime.strptime datas.2) as [dv|]; [|done].
  rewrite <- !Hk by lia.
  destruct (livros b !! isbn), (alunos b !! aluno_id); try done.
  rewrite (IH _); [done|].
  intros j Hj. apply Hk. destruct (checar_atraso _ _ _); lia.
Qed.

(** C7 as stated fails: with the state and the time of the call fixed,
    two runs of [emprestar_livro] can still differ, because the clock is
    read a second time for the due date.  Here the first run reads
    23:59 on 2024-03-01 twice, the second reads 23:59 and then 00:00 of
    the next day. *)
Lemma emprestar_livro_relogio_counterexample :
  ¬ (∀ (now : Z) (agora agora' : nat → Z) (isbn aluno_id : string)
       (b : Biblioteca) (fs : files),
       agora 0%nat = now → agora' 0%nat = now →
       emprestar_livro agora isbn aluno_id b fs
       = emprestar_livro agora' isbn aluno_id b fs).
Proof.
  intros H.
  specialize (H (Datetime.at_time 2024 3 1 23 59)
                (relogio_fixo (Datetime.at_time 2024 3 1 23 59))
                (relogio_de [Datetime.at_time 2024 3 1 23 59]
                            (Datetime.at_time 2024 3 2 0 0))
                "B1" "S1" acervo_B1_S1 ∅ eq_refl eq_refl).
  apply (f_equal (fun r => match r with
                           | Done out _ _ => out
                           | Raised _ => []
                           end)) in H.
  vm_compute in H. discriminate H.
Qed.

(** C7 as the code has it: [emprestar_livro] depends on the clock through
    its first two readings only, [devolver_livro] through the first, and
    [listar_emprestimos] through at most two readings per loan, so two
    runs from the same state whose readings agree give the same lines,
    the same state and the same files; in particular when every reading
    is the same [now].  [listar_emprestimos] changes neither state nor
    files. *)
Theorem operacoes_deterministicas :
  (∀ agora agora' isbn aluno_id b fs,
     agora 0%nat = agora' 0%nat → agora 1%nat = agora' 1%nat →
     emprestar_livro agora isbn aluno_id b fs
     = emprestar_livro agora' isbn aluno_id b fs)
  ∧ (∀ agora agora' isbn aluno_id b fs,
       agora 0%nat = agora' 0%nat →
       devolver_livro agora isbn aluno_id b fs
       = devolver_livro agora' isbn aluno_id b fs)
  ∧ (∀ agora agora' b fs,
       (∀ k, (k < 2 * length (entradas b))%nat → agora k = agora' k) →
       listar_emprestimos agora b fs = listar_emprestimos agora' b fs)
  ∧ (∀ now agora agora' isbn aluno_id b fs,
       (∀ k, agora k = now) → (∀ k, agora' k = now) →
       emprestar_livro agora isbn aluno_id b fs
       = emprestar_livro agora' isbn aluno_id b fs
       ∧ devolver_livro agora isbn aluno_id b fs
         = devolver_livro agora' isbn aluno_id b fs
       ∧ listar_emprestimos agora b fs = listar_emprestimos agora' b fs)
  ∧ (∀ agora b fs out b' fs',
       listar_emprestimos agora b fs = Done out b' fs' → b' = b ∧ fs' = fs).
Proof.
  assert (He : ∀ agora agora' isbn aluno_id b fs,
             agora 0%nat = agora' 0%nat → agora 1%nat = agora' 1%nat →
             emprestar_livro agora isbn aluno_id b fs
             = emprestar_livro agora' isbn aluno_id b fs).
  { intros * H0 H1. unfold emprestar_livro. by rewrite H0, H1. }
  assert (Hd : ∀ agora agora' isbn aluno_id b fs,
             agora 0%nat = agora' 0%nat →
             devolver_livro agora isbn aluno_id b fs
             = devolver_livro agora' isbn aluno_id b fs).
  { intros * H0. unfold devolver_livro. by rewrite H0. }
  assert (Hl : ∀ agora agora' b fs,
             (∀ k, (k < 2 * length (entradas b))%nat → agora k = agora' k) →
             listar_emprestimos agora b fs = listar_emprestimos agora' b fs).
  { intros * Hk. unfold listar_emprestimos.
    rewrite (relatorio_leituras agora agora'); [done|].
    intros j Hj. apply Hk. lia. }
  repeat split; try done.
  - apply He; congruence.
  - apply Hd; congruence.
  - apply Hl. intros; congruence.
  - unfold listar_emprestimos in *. by repeat case_match; simplify_eq.
  - unfold listar_emprestimos in *. by repeat case_match; simplify_eq.
Qed.

Lemma operacoes_deterministicas_witness :
  emprestar_livro (relogio_de [Datetime.at_time 2024 3 1 23 59;
                               Datetime.at_time 2024 3 2 0 0] 0)
                  "B1" "S1" acervo_B1_S1 ∅
  = emprestar_livro (relogio_de [Datetime.at_time 2024 3 1 23 59]
                                (Datetime.at_time 2024 3 2 0 0))
                    "B1" "S1" acervo_B1_S1 ∅.
Proof.
  apply (proj1 operacoes_deterministicas); reflexivity.
Defined.

(** ** Save then load *)

(** Inserting the pairs of a list without repeated keys, in order, builds
    the map of the list. *)
Lemma foldl_insert_list_to_map {A} (l : list (string * A))
    (acc : gmap string A) :
  NoDup l.*1 →
  foldl (fun m kv => <[kv.1 := kv.2]> m) acc l = list_to_map l ∪ acc.
Proof.
  revert acc. induction l as [|[k v] l IH]; intros acc Hnd; simpl.
  - by rewrite (left_id_L ∅ (∪)).
  - apply NoDup_cons in Hnd as [Hk Hnd]. rewrite IH by done.
    rewrite <- insert_union_l. symmetry. apply insert_union_r.
    by apply not_elem_of_list_to_map_1.
Qed.

Lemma foldl_insert_map_to_list {A} (m : gmap string A) :
  foldl (fun acc kv => <[kv.1 := kv.2]> acc) ∅ (map_to_list m) = m.
Proof.
  rewrite foldl_insert_list_to_map by apply NoDup_fst_map_to_list.
  by rewrite (right_id_L ∅ (∪)), list_to_map_to_list.
Qed.

(** The dictionary [csv.DictReader] builds from a written book row. *)
Lemma kwargs_livro (t a i sn sd : string) :
  let row : gmap string string :=
    list_to_map (reverse (zip Livro.fieldnames [t; a; i; sn; sd])) in
  dom row = list_to_set Livro.fieldnames
  ∧ row !!! "titulo" = t ∧ row !!! "autor" = a ∧ row !!! "isbn" = i
  ∧ row !!! "total_copias" = sn ∧ row !!! "copias_disponiveis" = sd.
Proof. repeat split; vm_compute; reflexivity. Qed.

Lemma kwargs_aluno (i n v : string) :
  let row : gmap string string :=
    list_to_map (reverse (zip Aluno.fieldnames [i; n; v])) in
  dom row = list_to_set Aluno.fieldnames
  ∧ row !!! "aluno_id" = i ∧ row !!! "nome" = n ∧ row !!! "banido" = v.
Proof. repeat split; vm_compute; reflexivity. Qed.

Lemma livro_from_kwargs_to_row (l : Livro.t) :
  let row : gmap string string :=
    list_to_map (reverse (zip Livro.fieldnames (Livro.to_row l))) in
  Livro.from_kwargs row = Some l ∧ row !!! "isbn" = Livro.isbn l.
Proof.
  destruct l as [t a i n d]. unfold Livro.to_row.
  cbn [Livro.titulo Livro.autor Livro.isbn Livro.total_copias
       Livro.copias_disponiveis].
  pose proof (kwargs_livro t a i (str n) (str d)) as H. cbv zeta in *.
  destruct H as (Hdom & Ht & Ha & Hi & Hn & Hd).
  split; [|done]. unfold Livro.from_kwargs.
  rewrite decide_True by done. rewrite Ht, Ha, Hi, Hn, Hd, !int_str. done.
Qed.

Lemma aluno_from_kwargs_to_row (a : Aluno.t) :
  let row : gmap string string :=
    list_to_map (reverse (zip Aluno.fieldnames (Aluno.to_row a))) in
  Aluno.from_kwargs row = Some a ∧ row !!! "aluno_id" = Aluno.aluno_id a.
Proof.
  destruct a as [i n v]. unfold Aluno.to_row.
  cbn [Aluno.aluno_id Aluno.nome Aluno.banido].
  pose proof (kwargs_aluno i n v) as H. cbv zeta in *.
  destruct H as (Hdom & Hi & Hn & Hv).
  split; [|done]. unfold Aluno.from_kwargs.
  rewrite decide_True by done. by rewrite Hi, Hn, Hv.
Qed.

(** [csv.DictReader] over a header and rows of the header's length, none
    of them blank. *)
Lemma DictReader_rows (fieldnames : list string) (rows : list (list string)) :
  Forall (fun row => length row = length fieldnames ∧ row ≠ []) rows →
  DictReader (fieldnames :: rows)
  = Some ((fun row => list_to_map (reverse (zip fieldnames row))) <$> rows).
Proof.
  unfold DictReader. induction 1 as [|row rows [Hlen Hne] _ IH]; [done|].
  rewrite filter_cons_True by done. simpl in *.
  rewrite decide_True by done. simpl. by rewrite IH.
Qed.

Lemma carregar_livros_linhas (m : gmap string Livro.t) :
  (∀ k livro, m !! k = Some livro → Livro.isbn livro = k) →
  carregar_livros
    (Livro.fieldnames :: (Livro.to_row <$> (map_to_list m).*2))
  = Some m.
Proof.
  intros Hk. unfold carregar_livros.
  rewrite DictReader_rows
    by (apply Forall_fmap, Forall_true; intros l; by split).
  simpl. rewrite <- list_fmap_compose.
  assert (Hfold : ∀ (ls : list (string * Livro.t)) (acc : gmap string Livro.t),
             Forall (fun kl => Livro.isbn kl.2 = kl.1) ls →
             foldl (fun acc row =>
                      m ← acc; l ← Livro.from_kwargs row;
                      Some (<[row !!! "isbn" := l]> m))
                   (Some acc)
                   ((fun r => list_to_map
                                (reverse (zip Livro.fieldnames (Livro.to_row r))))
                    <$> ls.*2)
             = Some (foldl (fun acc kv => <[kv.1 := kv.2]> acc) acc ls)).
  { induction ls as [|[k l] ls IH]; intros acc Hls; [done|].
    apply Forall_cons in Hls as [Hkl Hls].
    cbn [fmap list_fmap foldl snd mbind option_bind] in *.
    destruct (livro_from_kwargs_to_row l) as [-> ->].
    cbn [mbind option_bind]. rewrite Hkl. by apply IH. }
  etrans; [apply Hfold|by rewrite foldl_insert_map_to_list].
  apply Forall_forall. intros [k l] Hin%elem_of_map_to_list. by apply Hk.
Qed.

Lemma carregar_alunos_linhas (m : gmap string Aluno.t) :
  (∀ k aluno, m !! k = Some aluno → Aluno.aluno_id aluno = k) →
  carregar_alunos
    (Aluno.fieldnames :: (Aluno.to_row <$> (map_to_list m).*2))
  = Some m.
Proof.
  intros Hk. unfold carregar_alunos.
  rewrite DictReader_rows
    by (apply Forall_fmap, Forall_true; intros l; by split).
  simpl. rewrite <- list_fmap_compose.
  assert (Hfold : ∀ (ls : list (string * Aluno.t)) (acc : gmap string Aluno.t),
             Forall (fun ka => Aluno.aluno_id ka.2 = ka.1) ls →
             foldl (fun acc row =>
                      m ← acc; a ← Aluno.from_kwargs row;
                      Some (<[row !!! "aluno_id" := a]> m))
                   (Some acc)
                   ((fun r => list_to_map
                                (reverse (zip Aluno.fieldnames (Aluno.to_row r))))
                    <$> ls.*2)
             = Some (foldl (fun acc kv => <[kv.1 := kv.2]> acc) acc ls)).
  { induction ls as [|[k a] ls IH]; intros acc Hls; [done|].
    apply Forall_cons in Hls as [Hka Hls].
    cbn [fmap list_fmap foldl snd mbind option_bind] in *.
    destruct (aluno_from_kwargs_to_row a) as [-> ->].
    cbn [mbind option_bind]. rewrite Hka. by apply IH. }
  etrans; [apply Hfold|by rewrite foldl_insert_map_to_list].
  apply Forall_forall. intros [k a] Hin%elem_of_map_to_list. by apply Hk.
Qed.

(** The rows of the ledger file are the entries of the ledger, one row
    each. *)
Lemma emprestimos_data_entradas (b : Biblioteca) :
  emprestimos_data (emprestimos b)
  = (fun e => [e.1; e.2.1; e.2.2.1; e.2.2.2]) <$> entradas b.
Proof.
  unfold emprestimos_data, entradas.
  induction (map_to_list (emprestimos b)) as [|[isbn inner] L IH]; [done|].
  rewrite !bind_cons, fmap_app, IH. f_equal.
  induction (map_to_list inner) as [|[a d] l IHl]; [done|].
  rewrite bind_cons, !fmap_cons, IHl. done.
Qed.

(** Reading the rows back inserts the entries one by one. *)
Lemma carregar_emprestimos_foldl
    (es : list (string * (string * (string * string))))
    (acc : gmap string (gmap string (string * string))) :
  foldl (fun acc row =>
           m ← acc;
           match row with
           | [isbn; aluno_id; data_emprestimo; data_vencimento] =>
               Some (<[isbn := <[aluno_id := (data_emprestimo, data_vencimento)]>
                                 (default ∅ (m !! isbn))]> m)
           | _ => None
           end)
        (Some acc)
        ((fun e => [e.1; e.2.1; e.2.2.1; e.2.2.2]) <$> es)
  = Some (foldl (fun m e => <[e.1 := <[e.2.1 := e.2.2]> (default ∅ (m !! e.1))]> m)
                acc es).
Proof.
  revert acc. induction es as [|[isbn [a [d1 d2]]] es IH]; intros acc; [done|].
  rewrite fmap_cons. cbn [foldl mbind option_bind fst snd]. apply IH.
Qed.

(** The entries of one book, inserted in order, add that book's
    dictionary of borrowers. *)
Lemma foldl_emprestimos_livro (isbn : string)
    (l : list (string * (string * string)))
    (acc : gmap string (gmap string (string * string))) :
  NoDup l.*1 → l ≠ [] →
  foldl (fun m e => <[e.1 := <[e.2.1 := e.2.2]> (default ∅ (m !! e.1))]> m)
        acc ((fun e => (isbn, e)) <$> l)
  = <[isbn := list_to_map l ∪ default ∅ (acc !! isbn)]> acc.
Proof.
  revert acc. induction l as [|[a d] l IH]; intros acc Hnd Hne; [done|].
  apply NoDup_cons in Hnd as [Ha Hnd].
  rewrite fmap_cons. cbn [foldl fst snd].
  destruct l as [|e l].
  - cbn [fmap list_fmap foldl].
    by rewrite list_to_map_cons, list_to_map_nil, <- insert_union_l,
      (left_id_L ∅ (∪)).
  - rewrite IH by done. rewrite lookup_insert_eq. simpl default.
    rewrite insert_insert_eq. f_equal.
    rewrite list_to_map_cons, <- insert_union_l. symmetry.
    apply insert_union_r. by apply not_elem_of_list_to_map_1.
Qed.

(** All entries, book after book, rebuild a ledger that has no empty
    dictionary of borrowers. *)
Lemma foldl_emprestimos
    (L : list (string * gmap string (string * string)))
    (acc : gmap string (gmap string (string * string))) :
  NoDup L.*1 →
  Forall (fun ki => ki.2 ≠ ∅) L →
  (∀ k, k ∈ L.*1 → acc !! k = None) →
  foldl (fun m e => <[e.1 := <[e.2.1 := e.2.2]> (default ∅ (m !! e.1))]> m)
        acc
        ('(isbn, alunos_emprestados) ← L;
         (fun e => (isbn, e)) <$> map_to_list alunos_emprestados)
  = list_to_map L ∪ acc.
Proof.
  revert acc. induction L as [|[k inner] L IH]; intros acc Hnd Hne Hacc.
  - simpl. by rewrite (left_id_L ∅ (∪)).
  - apply NoDup_cons in Hnd as [Hk Hnd].
    apply Forall_cons in Hne as [Hinner Hne]. simpl in Hinner.
    rewrite bind_cons, foldl_app.
    rewrite foldl_emprestimos_livro;
      [|apply NoDup_fst_map_to_list|by rewrite map_to_list_empty_iff].
    rewrite list_to_map_to_list, Hacc by (simpl; left).
    simpl default. rewrite (right_id_L ∅ (∪)).
    rewrite IH; [|done|done|].
    + rewrite list_to_map_cons, <- insert_union_l. symmetry.
      apply insert_union_r. by apply not_elem_of_list_to_map_1.
    + intros k' Hk'. rewrite lookup_insert_ne by (intros ->; done).
      apply Hacc. simpl. by right.
Qed.

Lemma carregar_emprestimos_linhas (b : Biblioteca) :
  sem_vazios b →
  carregar_emprestimos (EMPRESTIMOS_HEADER :: emprestimos_data (emprestimos b))
  = Some (emprestimos b).
Proof.
  intros Hsv. unfold carregar_emprestimos. cbn [tail].
  rewrite emprestimos_data_entradas, carregar_emprestimos_foldl.
  unfold entradas. rewrite foldl_emprestimos.
  - by rewrite (right_id_L ∅ (∪)), list_to_map_to_list.
  - apply NoDup_fst_map_to_list.
  - apply Forall_forall. intros [k inner] Hin%elem_of_map_to_list.
    by eapply Hsv.
  - intros. apply lookup_empty.
Qed.
(** The header rows are short. *)
Lemma cabecalhos_curtos :
  Forall (fun celula => (len celula <= FIELD_SIZE_LIMIT)%N) Livro.fieldnames
  ∧ Forall (fun celula => (len celula <= FIELD_SIZE_LIMIT)%N) Aluno.fieldnames
  ∧ Forall (fun celula => (len celula <= FIELD_SIZE_LIMIT)%N)
           EMPRESTIMOS_HEADER.
Proof. repeat split; by_decide. Qed.

Lemma csv_reader_curtas (header : list string) (rows : list (list string)) :
  Forall (fun celula => (len celula <= FIELD_SIZE_LIMIT)%N) header →
  celulas_curtas rows →
  csv_reader (header :: rows) = Some (header :: rows).
Proof.
  intros Hh Hrows. unfold csv_reader.
  rewrite decide_True; [done|]. by apply Forall_cons.
Qed.

(** One save followed by one load gives the state back, provided the
    records sit under their own identifiers, the ledger has no empty
    dictionary of borrowers, a collection that is empty in memory is
    empty on disk too, and every cell written is within the reader's
    limit. *)
Lemma carregar_salvar (b : Biblioteca) (fs : files) :
  chaves b → sem_vazios b → disco_coerente b fs → cabe b →
  _carregar_dados (salvar_dados b fs).2 = Some b.
Proof.
  intros [Hkl Hka] Hsv [Hdl Hda] (Hcl & Hca & Hce).
  destruct cabecalhos_curtos as (Hhl & Hha & Hhe).
  assert (Hl : carregar_arquivo carregar_livros LIVROS_FILE (salvar_dados b fs).2
               = Some (livros b)).
  { unfold salvar_dados, carregar_arquivo in *. cbn [snd].
    rewrite lookup_insert_ne by done.
    destruct (decide (livros b = ∅)) as [He|Hne].
    - destruct (decide (alunos b = ∅));
        rewrite ?lookup_insert_ne by done; rewrite He; auto.
    - destruct (decide (alunos b = ∅));
        rewrite ?lookup_insert_ne by done; rewrite lookup_insert_eq;
        rewrite csv_reader_curtas by done;
        by apply carregar_livros_linhas. }
  assert (Ha : carregar_arquivo carregar_alunos ALUNOS_FILE (salvar_dados b fs).2
               = Some (alunos b)).
  { unfold salvar_dados, carregar_arquivo in *. cbn [snd].
    rewrite lookup_insert_ne by done.
    destruct (decide (alunos b = ∅)) as [He|Hne].
    - destruct (decide (livros b = ∅));
        rewrite ?lookup_insert_ne by done; rewrite He; auto.
    - rewrite lookup_insert_eq. rewrite csv_reader_curtas by done.
      by apply carregar_alunos_linhas. }
  assert (He : carregar_arquivo carregar_emprestimos EMPRESTIMOS_FILE
                 (salvar_dados b fs).2
               = Some (emprestimos b)).
  { unfold salvar_dados, carregar_arquivo. cbn [snd].
    rewrite lookup_insert_eq. rewrite csv_reader_curtas by done.
    by apply carregar_emprestimos_linhas. }
  unfold _carregar_dados. rewrite Hl, Ha, He. by destruct b.
Qed.

(** A fold that may fail keeps what every successful step keeps. *)
Lemma foldl_option_inv {A B} (f : A → B → option A) (P : A → Prop)
    (l : list B) (a r : A) :
  P a →
  (∀ a x a', P a → f a x = Some a' → P a') →
  foldl (fun acc x => m ← acc; f m x) (Some a) l = Some r →
  P r.
Proof.
  intros Ha Hstep. revert a Ha. induction l as [|x l IH]; intros a Ha; simpl.
  - by intros [= <-].
  - destruct (f a x) as [a'|] eqn:Hf; [by eauto|].
    intros Hnone. exfalso. clear -Hnone.
    induction l as [|y l IHl]; [done|]. by apply IHl.
Qed.

(** The state built at start-up has the three properties. *)
Lemma carregar_dados_coerente (fs : files) (b : Biblioteca) :
  _carregar_dados fs = Some b →
  chaves b ∧ sem_vazios b ∧ disco_coerente b fs.
Proof.
  unfold _carregar_dados. intros H.
  destruct (carregar_arquivo carregar_livros _ _) as [ls|] eqn:Hl; [|done].
  destruct (carregar_arquivo carregar_alunos _ _) as [als|] eqn:Ha; [|done].
  destruct (carregar_arquivo carregar_emprestimos _ _) as [es|] eqn:He;
    [|done].
  injection H as <-. unfold chaves, sem_vazios, disco_coerente. simpl.
  repeat split.
  - unfold carregar_arquivo, carregar_livros in Hl.
    destruct (fs !! LIVROS_FILE) as [rows0|];
      [|injection Hl as <-; intros ??; by rewrite lookup_empty].
    destruct (csv_reader rows0) as [rows|]; [|done]. simpl in Hl.
    destruct (DictReader rows) as [kws|]; [|done]. simpl in Hl.
    revert Hl.
    apply (foldl_option_inv
             (fun m row => l ← Livro.from_kwargs row;
                           Some (<[row !!! "isbn" := l]> m))
             (fun m => ∀ k livro, m !! k = Some livro → Livro.isbn livro = k)).
    + intros ??; by rewrite lookup_empty.
    + intros m row m' Hm Hrow k livro.
      unfold Livro.from_kwargs in Hrow. case_decide; [|done].
      destruct (int (row !!! "total_copias")); simpl in Hrow; [|done].
      destruct (int (row !!! "copias_disponiveis")); simpl in Hrow; [|done].
      injection Hrow as <-.
      rewrite lookup_insert. case_decide; [|by apply Hm].
      by intros [= <-].
  - unfold carregar_arquivo, carregar_alunos in Ha.
    destruct (fs !! ALUNOS_FILE) as [rows0|];
      [|injection Ha as <-; intros ??; by rewrite lookup_empty].
    destruct (csv_reader rows0) as [rows|]; [|done]. simpl in Ha.
    destruct (DictReader rows) as [kws|]; [|done]. simpl in Ha.
    revert Ha.
    apply (foldl_option_inv
             (fun m row => a ← Aluno.from_kwargs row;
                           Some (<[row !!! "aluno_id" := a]> m))
             (fun m => ∀ k aluno, m !! k = Some aluno →
                                  Aluno.aluno_id aluno = k)).
    + intros ??; by rewrite lookup_empty.
    + intros m row m' Hm Hrow k aluno.
      unfold Aluno.from_kwargs in Hrow.
      repeat case_decide; try done; simpl in Hrow; injection Hrow as <-;
        rewrite lookup_insert; (case_decide; [|by apply Hm]);
        by intros [= <-].
  - unfold carregar_arquivo, carregar_emprestimos in He.
    destruct (fs !! EMPRESTIMOS_FILE) as [rows0|];
      [|injection He as <-; intros ??; by rewrite lookup_empty].
    destruct (csv_reader rows0) as [rows|]; [|done]. simpl in He.
    revert He.
    apply (foldl_option_inv
             (fun m row =>
                match row with
                | [isbn; aluno_id; data_emprestimo; data_vencimento] =>
                    Some (<[isbn := <[aluno_id :=
                                        (data_emprestimo, data_vencimento)]>
                                      (default ∅ (m !! isbn))]> m)
                | _ => None
                end)
             (fun m => ∀ k inner, m !! k = Some inner → inner ≠ ∅)).
    + intros ??; by rewrite lookup_empty.
    + intros m row m' Hm Hrow k inner.
      destruct row as [|i [|a [|d1 [|d2 [|]]]]]; try done.
      injection Hrow as <-. rewrite lookup_insert.
      case_decide; [|by apply Hm].
      intros [= <-]. apply insert_non_empty.
  - by intros <-.
  - by intros <-.
Qed.

Lemma mutacao_coerente (b b' : Biblioteca) (fs : files) :
  mutacao b b' →
  chaves b ∧ sem_vazios b ∧ disco_coerente b fs →
  chaves b' ∧ sem_vazios b' ∧ disco_coerente b' fs.
Proof.
  intros Hm ([Hkl Hka] & Hsv & [Hdl Hda]).
  unfold chaves, sem_vazios, disco_coerente.
  destruct Hm as [isbn livro copias Hl Hpos
                 |titulo autor isbn copias Hl Hpos
                 |aluno_id nome Ha
                 |aluno_id aluno v Ha
                 |isbn aluno_id livro datas Hl Hpos He
                 |isbn aluno_id livro datas Hl He]; simpl.
  all: repeat split; try done.
  all: try (intros Hempty; by apply insert_non_empty in Hempty).
  all: try (intros k x; rewrite lookup_insert;
            (case_decide; [intros [= <-]; subst; simpl; eauto
                          |by eauto])).
  - apply insert_non_empty.
  - intros k inner. case_decide as Hempty.
    + rewrite lookup_delete. case_decide; [done|]. by apply Hsv.
    + rewrite lookup_insert. case_decide; [|by apply Hsv].
      by intros [= <-].
Qed.

Lemma salvar_coerente (b : Biblioteca) (fs : files) :
  disco_coerente b fs → disco_coerente b (salvar_dados b fs).2.
Proof.
  intros [Hdl Hda]. unfold disco_coerente, salvar_dados, carregar_arquivo in *.
  cbn [snd]. split; intros He; rewrite lookup_insert_ne by done.
  - rewrite (decide_True (P := livros b = ∅)) by done.
    case_decide; rewrite ?lookup_insert_ne by done; auto.
  - rewrite (decide_True (P := alunos b = ∅)) by done.
    case_decide; rewrite ?lookup_insert_ne by done; auto.
Qed.

Lemma sessao_coerente (b : Biblioteca) (fs : files) :
  sessao b fs → chaves b ∧ sem_vazios b ∧ disco_coerente b fs.
Proof.
  intros (b0 & fs0 & _ & Hload & Hs).
  induction Hs as [|c b fs out b' fs' _ IH Hex].
  - by apply carregar_dados_coerente.
  - apply executar_Done in Hex as [Hb Hfs].
    assert (Hb' : chaves b' ∧ sem_vazios b' ∧ disco_coerente b' fs).
    { destruct Hb as [->|Hm]; [done|]. by eapply mutacao_coerente. }
    destruct Hfs as [->| ->]; [done|].
    destruct Hb' as (? & ? & ?).
    split; [done|]. split; [done|]. by apply salvar_coerente.
Qed.

Lemma sessao_inicial_sessao (b : Biblioteca) (fs : files) :
  sessao_inicial b fs → sessao b fs.
Proof.
  intros Hs. exists vazia, ∅. split; [|done].
  intros nome fieldnames rows _ Hfs. by rewrite lookup_empty in Hfs.
Qed.

(** Reading fails as soon as one cell of the file is too long. *)
Lemma csv_reader_longa (rows : list (list string)) (row : list string)
    (celula : string) :
  row ∈ rows → celula ∈ row → (FIELD_SIZE_LIMIT < len celula)%N →
  csv_reader rows = None.
Proof.
  intros Hrow Hcel Hlen. unfold csv_reader. rewrite decide_False; [done|].
  intros Hrows.
  pose proof (proj1 (Forall_forall _ _) Hrows _ Hrow) as Hr.
  pose proof (proj1 (Forall_forall _ _) Hr _ Hcel) as Hc.
  simpl in Hc. lia.
Qed.

Lemma len_iter (p : positive) :
  len (Pos.iter (String "a") EmptyString p) = Npos p.
Proof.
  apply (Pos.iter_ind string (String "a") EmptyString
           (fun p s => len s = Npos p)).
  - reflexivity.
  - intros q s Hs. cbn [len]. rewrite Hs.
    change (N_of_ascii "a") with 97%N. simpl. lia.
Qed.

(** A book added under a title beyond the limit: the call saves, and
    the catalog file it wrote cannot be read back. *)
Lemma titulo_longo_nao_carrega (titulo : string) :
  (FIELD_SIZE_LIMIT < len titulo)%N →
  ∃ fs,
    sessao_inicial (acervo_titulo titulo) fs
    ∧ _carregar_dados (salvar_dados (acervo_titulo titulo) fs).2 = None.
Proof.
  intros Hlen. exists (salvar_dados (acervo_titulo titulo) ∅).2. split.
  - eapply alcancavel_passo
      with (c := AdicionarLivro titulo "Anonimo" "B1" 1);
      [apply alcancavel_inicio|reflexivity].
  - assert (Hfile : (salvar_dados (acervo_titulo titulo)
                       (salvar_dados (acervo_titulo titulo) ∅).2).2
                    !! LIVROS_FILE
                    = Some [Livro.fieldnames;
                            [titulo; "Anonimo"; "B1"; "1"; "1"]])
      by (vm_compute; reflexivity).
    assert (Hl : carregar_arquivo carregar_livros LIVROS_FILE
                   (salvar_dados (acervo_titulo titulo)
                      (salvar_dados (acervo_titulo titulo) ∅).2).2
                 = None).
    { unfold carregar_arquivo. rewrite Hfile.
      rewrite (csv_reader_longa _ [titulo; "Anonimo"; "B1"; "1"; "1"]
                 titulo);
        [done| |by apply elem_of_cons; left|done].
      apply elem_of_cons. right. apply elem_of_cons. by left. }
    unfold _carregar_dados. by rewrite Hl.
Qed.

(** C8 as stated fails: a state reached through [adicionar_livro]
    alone, from the empty state, is saved and then does not load.  The
    title has 131073 characters; [csv.writer] writes the cell and
    [csv.reader] raises on it. *)
Lemma carregar_salvar_counterexample :
  ¬ (∀ (b : Biblioteca) (fs : files),
       sessao_inicial b fs →
       _carregar_dados (salvar_dados b fs).2 = Some b).
Proof.
  intros H.
  destruct (titulo_longo_nao_carrega titulo_longo) as (fs & Hs & Hnone).
  { unfold titulo_longo. rewrite len_iter. reflexivity. }
  specialize (H _ _ Hs). rewrite Hnone in H. discriminate H.
Qed.

(** C8: in every state reached from the empty state through the
    commands, provided every cell the save writes is within the field
    size limit of [csv.reader], saving and then loading builds the very
    state that was saved: the same books, borrowers and loans under the
    same keys with the same field values. *)
Theorem carregar_salvar_sessao (b : Biblioteca) (fs : files) :
  sessao_inicial b fs →
  cabe b →
  _carregar_dados (salvar_dados b fs).2 = Some b.
Proof.
  intros Hs Hcabe.
  destruct (sessao_coerente b fs (sessao_inicial_sessao b fs Hs))
    as (? & ? & ?).
  by apply carregar_salvar.
Qed.

Lemma carregar_salvar_sessao_witness :
  _carregar_dados (salvar_dados emprestado_B1_S1 arquivos_emprestimo).2
  = Some emprestado_B1_S1.
Proof.
  apply (carregar_salvar_sessao emprestado_B1_S1 arquivos_emprestimo
           roteiro_emprestimo_alcancavel).
  by_decide.
Defined.

(** * Further properties of the methods *)

(** ** Commands as exact transitions *)

Lemma elem_of_salvar (out : list msg) :
  Salvando ∈ out ++ [Salvando; DadosSalvos].
Proof. apply elem_of_app. right. apply elem_of_cons. by left. Qed.

(** Finds the save among the lines a successful call printed. *)
Ltac salvou_aqui :=
  first [ apply elem_of_salvar
        | apply list_elem_of_In; simpl; auto 10 ].

(** A command that ends normally either saves nothing and changes
    nothing, or saves the state it leaves, which is the state it found
    or one exact transition away. *)
Lemma executar_transicao (c : comando) (b b' : Biblioteca) (fs fs' : files)
    (out : list msg) :
  executar c b fs = Done out b' fs' →
  (b' = b ∧ fs' = fs ∧ Salvando ∉ out)
  ∨ ((b' = b ∨ transicao b b')
     ∧ fs' = (salvar_dados b' fs).2 ∧ Salvando ∈ out).
Proof.
  assert (Hno : ∀ m e, erro_de_msg m = Some e → Salvando ∉ [m]).
  { intros m e He <-%list_elem_of_singleton. done. }
  destruct c as [titulo autor isbn copias|aluno_id nome|aluno_id|aluno_id
                |agora isbn aluno_id|agora isbn aluno_id|]; unfold executar.
  - case_decide.
    { intros [= <- <- <-]. left. repeat split.
      by intros [=]%list_elem_of_singleton. }
    unfold adicionar_livro.
    destruct (livros b !! isbn) as [livro|] eqn:Hl;
      rewrite salvar_e_retornar_eq; intros [= <- <- <-]; right;
      (split; [right|split; [done|salvou_aqui]]).
    + by apply (transicao_reposicao b isbn livro copias); [|lia].
    + by apply transicao_livro_novo; [|lia].
  - unfold adicionar_aluno. case_decide as Ha.
    { intros [= <- <- <-]. left. repeat split. by eapply Hno. }
    rewrite salvar_e_retornar_eq. intros [= <- <- <-]. right.
    split; [right|split; [done|salvou_aqui]].
    apply transicao_cadastro. by apply eq_None_not_Some.
  - unfold banir_aluno.
    destruct (alunos b !! aluno_id) as [aluno|] eqn:Ha; [case_decide|].
    + intros [= <- <- <-]. left. repeat split. by eapply Hno.
    + rewrite salvar_e_retornar_eq. intros [= <- <- <-]. right.
      split; [right|split; [done|salvou_aqui]].
      by apply transicao_banir.
    + intros [= <- <- <-]. left. repeat split. by eapply Hno.
  - unfold desbanir_aluno.
    destruct (alunos b !! aluno_id) as [aluno|] eqn:Ha.
    + rewrite salvar_e_retornar_eq. intros [= <- <- <-]. right.
      split; [right|split; [done|salvou_aqui]].
      by apply transicao_desbanir.
    + intros [= <- <- <-]. left. repeat split. by eapply Hno.
  - unfold emprestar_livro.
    destruct (livros b !! isbn) as [livro|] eqn:Hl;
      [destruct (alunos b !! aluno_id) as [aluno|] eqn:Ha|];
      try (intros [= <- <- <-]; left; repeat split; by eapply Hno).
    destruct (decide (Aluno.banido aluno = "Sim"));
      [intros [= <- <- <-]; left; repeat split; by eapply Hno|].
    destruct (decide (Livro.copias_disponiveis livro <= 0));
      [intros [= <- <- <-]; left; repeat split; by eapply Hno|].
    destruct (decide (is_Some (emprestimo isbn aluno_id b)));
      [intros [= <- <- <-]; left; repeat split; by eapply Hno|].
    unfold Datetime.add_days. case_decide as Hv; [|done].
    rewrite salvar_e_retornar_eq. intros [= <- <- <-]. right.
    split; [right|split; [done|salvou_aqui]].
    eapply transicao_emprestimo; try done; [lia|by apply eq_None_not_Some].
  - unfold devolver_livro.
    destruct (emprestimo isbn aluno_id b) as [datas|] eqn:He;
      [|intros [= <- <- <-]; left; repeat split; by eapply Hno].
    destruct (Datetime.strptime _) as [dv|] eqn:Hp; [|done].
    destruct (livros b !! isbn) as [livro|] eqn:Hl; [|done].
    destruct (alunos b !! aluno_id) as [aluno|] eqn:Ha; [|done].
    rewrite salvar_e_retornar_eq. intros [= <- <- <-]. right.
    split; [right|split; [done|salvou_aqui]].
    by eapply transicao_devolucao.
  - rewrite salvar_e_retornar_eq. intros [= <- <- <-]. right.
    split; [by left|split; [done|salvou_aqui]].
Qed.

Lemma transicao_mutacao (b b' : Biblioteca) : transicao b b' → mutacao b b'.
Proof.
  destruct 1; by econstructor.
Qed.

(** ** Commands never lose a record *)

Lemma continua_refl (b : Biblioteca) : continua b b.
Proof. split; intros; eexists; repeat split; try done; lia. Qed.

Lemma continua_trans (b1 b2 b3 : Biblioteca) :
  continua b1 b2 → continua b2 b3 → continua b1 b3.
Proof.
  intros [Hl12 Ha12] [Hl23 Ha23]. split.
  - intros isbn l1 E1.
    destruct (Hl12 _ _ E1) as (l2 & E2 & ? & ? & ? & ?).
    destruct (Hl23 _ _ E2) as (l3 & E3 & ? & ? & ? & ?).
    exists l3. repeat split; try congruence. lia.
  - intros aluno_id a1 E1.
    destruct (Ha12 _ _ E1) as (a2 & E2 & ? & ?).
    destruct (Ha23 _ _ E2) as (a3 & E3 & ? & ?).
    exists a3. repeat split; congruence.
Qed.

Lemma transicao_continua (b b' : Biblioteca) : transicao b b' → continua b b'.
Proof.
  destruct 1 as [isbn livro copias Hl Hpos
                |titulo autor isbn copias Hl Hpos
                |aluno_id nome Ha
                |aluno_id aluno Ha Hne
                |aluno_id aluno Ha
                |isbn aluno_id livro aluno emprestado vencimento Hl Ha
                |isbn aluno_id livro aluno datas dv Hl Ha];
    split; simpl; intros k x Hx;
    rewrite ?lookup_insert; try case_decide; simplify_eq;
    eexists; (split; [done|]); simpl; repeat split; try done; lia.
Qed.

(** X1: whatever the commands of a session, from any state: a book once
    in the catalog stays there under its identifier with its title and
    author, and its total never goes down; a borrower once registered
    stays registered under the same name.  Restocking under another
    title does not rename the book. *)
Theorem sessao_continua (b0 b : Biblioteca) (fs0 fs : files) :
  alcancavel b0 fs0 b fs → continua b0 b.
Proof.
  induction 1 as [|c b fs out b' fs' _ IH Hex]; [apply continua_refl|].
  apply executar_transicao in Hex as [(-> & _)|([->|Ht] & _)]; try done.
  eapply continua_trans; [done|]. by apply transicao_continua.
Qed.

Lemma sessao_continua_witness :
  ∃ livro,
    livros emprestado_B1_S1 !! "B1" = Some livro
    ∧ Livro.titulo livro = "Dom Casmurro"
    ∧ 1 <= Livro.total_copias livro.
Proof.
  destruct (sessao_continua acervo_B1_S1 emprestado_B1_S1 ∅
              (salvar_dados emprestado_B1_S1 ∅).2) as [Hl _].
  - eapply alcancavel_passo with
      (c := Emprestar (relogio_fixo (Datetime.at_time 2024 3 1 10 30))
                      "B1" "S1");
      [apply alcancavel_inicio|by_compute].
  - destruct (Hl "B1" livro_B1) as (livro & ? & ? & _ & _ & ?);
      [by_compute|].
    by exists livro.
Defined.

(** ** The ledger only names what exists *)

Lemma elem_of_entradas (isbn aluno_id : string) (datas : string * string)
    (b : Biblioteca) :
  (isbn, (aluno_id, datas)) ∈ entradas b
  ↔ emprestimo isbn aluno_id b = Some datas.
Proof.
  unfold entradas, emprestimo. rewrite list_elem_of_bind. split.
  - intros ([i inner] & Hin & Hout%elem_of_map_to_list).
    apply list_elem_of_fmap in Hin as ([a d] & [= -> -> ->] & Hin).
    apply elem_of_map_to_list in Hin. by rewrite Hout.
  - destruct (emprestimos b !! isbn) as [inner|] eqn:Hi; [|done].
    simpl. intros Ha. exists (isbn, inner). split.
    + apply list_elem_of_fmap. exists (aluno_id, datas).
      split; [done|]. by apply elem_of_map_to_list.
    + by apply elem_of_map_to_list.
Qed.

(** The report goes through when every entry has its book, its borrower
    and a due date that reads as a date; it has two lines per entry. *)
Lemma relatorio_inr (agora : nat → Z) (b : Biblioteca)
    (es : list (string * (string * (string * string)))) (k : nat) :
  Forall (fun e => is_Some (livros b !! e.1)
                   ∧ is_Some (alunos b !! e.2.1)
                   ∧ is_Some (Datetime.strptime e.2.2.2)) es →
  ∃ linhas,
    relatorio agora k b es = inr linhas
    ∧ length linhas = (2 * length es)%nat.
Proof.
  intros Hes. revert k.
  induction Hes as [|[isbn [aluno_id datas]] es
                     ([livro Hl] & [aluno Ha] & [dv Hp]) _ IH];
    intros k; simpl in *.
  - by exists [].
  - rewrite Hp, Hl, Ha.
    destruct (IH (match checar_atraso (agora k) (agora (S k)) dv with
                  | EmDia => S k
                  | Atrasado _ => S (S k)
                  end)) as (linhas & -> & Hlen).
    eexists. split; [done|]. simpl. lia.
Qed.

Lemma transicao_referencias (b b' : Biblioteca) :
  transicao b b' → referencias b → referencias b'.
Proof.
  intros Ht Hr.
  assert (Hkeep : ∀ {A} (m : gmap string A) k v i,
             is_Some (m !! i) → is_Some (<[k := v]> m !! i)).
  { intros A m k v i Hi. apply lookup_insert_is_Some.
    destruct (decide (k = i)); auto. }
  destruct Ht as [isbn livro copias Hl Hpos
                 |titulo autor isbn copias Hl Hpos
                 |aluno_id nome Ha
                 |aluno_id aluno Ha Hne
                 |aluno_id aluno Ha
                 |isbn aluno_id livro aluno emprestado vencimento
                    Hl Ha Hb Hpos He Hv
                 |isbn aluno_id livro aluno datas dv Hl Ha He Hp];
    intros i a d Hd.
  - destruct (Hr i a d Hd) as (? & ? & ?). simpl. auto.
  - destruct (Hr i a d Hd) as (? & ? & ?). simpl. auto.
  - destruct (Hr i a d Hd) as (? & ? & ?). simpl. auto.
  - destruct (Hr i a d Hd) as (? & ? & ?). simpl. auto.
  - destruct (Hr i a d Hd) as (? & ? & ?). simpl. auto.
  - rewrite emprestimo_insert in Hd. simpl. case_decide as Heq.
    + injection Heq as -> ->. injection Hd as <-.
      rewrite lookup_insert_eq, Ha. simpl.
      rewrite strptime_strftime by done. eauto.
    + destruct (Hr i a d Hd) as (? & ? & ?). auto.
  - rewrite emprestimo_delete in Hd. simpl. case_decide; [done|].
    destruct (Hr i a d Hd) as (? & ? & ?). auto.
Qed.

Lemma sessao_inicial_referencias (b : Biblioteca) (fs : files) :
  sessao_inicial b fs → referencias b.
Proof.
  unfold sessao_inicial. induction 1 as [|c b fs out b' fs' _ IH Hex].
  - intros i a d. unfold emprestimo. simpl. by rewrite lookup_empty.
  - apply executar_transicao in Hex as [(-> & _)|([->|Ht] & _)]; try done.
    by eapply transicao_referencias.
Qed.

(** X2: in a session started on no files every ledger entry names a
    book of the catalog and a borrower of the roster and carries a due
    date that reads as a date; so [devolver_livro] never raises, for any
    pair and any clock, and [listar_emprestimos] never raises either and
    prints two lines per open loan between its header and footer,
    leaving state and files alone. *)
Theorem sessao_inicial_sem_excecoes (b : Biblioteca) (fs : files) :
  sessao_inicial b fs →
  referencias b
  ∧ (∀ agora isbn aluno_id,
       ∃ out b' fs',
         devolver_livro agora isbn aluno_id b fs = Done out b' fs')
  ∧ (∀ agora,
       ∃ out,
         listar_emprestimos agora b fs = Done out b fs
         ∧ (emprestimos b ≠ ∅ →
            length out = (2 + 2 * length (entradas b))%nat)).
Proof.
  intros Hs. pose proof (sessao_inicial_referencias b fs Hs) as Hr.
  split; [done|]. split.
  - intros agora isbn aluno_id. unfold devolver_livro.
    destruct (emprestimo isbn aluno_id b) as [datas|] eqn:He; [|by eauto].
    destruct (Hr _ _ _ He) as ([livro ->] & [aluno ->] & [dv ->]).
    rewrite salvar_e_retornar_eq. eauto.
  - intros agora. unfold listar_emprestimos.
    case_decide as Hempty; [by exists [NenhumEmprestimo]|].
    destruct (relatorio_inr agora b (entradas b) 0) as (linhas & -> & Hlen).
    + apply Forall_forall. intros [isbn [aluno_id datas]] Hin.
      apply elem_of_entradas in Hin. by apply Hr.
    + eexists. split; [done|]. intros _.
      rewrite !length_app. simpl. lia.
Qed.

Lemma sessao_inicial_sem_excecoes_witness :
  ∃ out b' fs',
    devolver_livro (relogio_fixo 0) "B1" "S1"
                   emprestado_B1_S1 arquivos_emprestimo
    = Done out b' fs'.
Proof.
  exact (proj1 (proj2 (sessao_inicial_sem_excecoes
                         emprestado_B1_S1 arquivos_emprestimo
                         roteiro_emprestimo_alcancavel))
           (relogio_fixo 0) "B1" "S1").
Defined.

(** ** Banned borrowers hold nothing *)

Lemma tem_emprestimo_emprestimos (aluno_id : string) (b b' : Biblioteca) :
  emprestimos b' = emprestimos b →
  tem_emprestimo aluno_id b' ↔ tem_emprestimo aluno_id b.
Proof. unfold tem_emprestimo. by intros ->. Qed.

Lemma transicao_banidos (b b' : Biblioteca) :
  transicao b b' → banidos_sem_emprestimos b → banidos_sem_emprestimos b'.
Proof.
  intros Ht Hb.
  destruct Ht as [isbn livro copias Hl Hpos
                 |titulo autor isbn copias Hl Hpos
                 |aluno_id nome Ha
                 |aluno_id aluno Ha Hne
                 |aluno_id aluno Ha
                 |isbn aluno_id livro aluno emprestado vencimento
                    Hl Ha Hban Hpos He Hv
                 |isbn aluno_id livro aluno datas dv Hl Ha He Hp];
    intros a x; simpl.
  - intros Hx Hs. rewrite tem_emprestimo_emprestimos by done. eauto.
  - intros Hx Hs. rewrite tem_emprestimo_emprestimos by done. eauto.
  - rewrite lookup_insert. case_decide; [by intros [= <-]|].
    intros Hx Hs. rewrite tem_emprestimo_emprestimos by done. eauto.
  - rewrite lookup_insert. case_decide as Heq.
    + subst a. intros _ _. by rewrite tem_emprestimo_emprestimos.
    + intros Hx Hs. rewrite tem_emprestimo_emprestimos by done. eauto.
  - rewrite lookup_insert. case_decide; [by intros [= <-]|].
    intros Hx Hs. rewrite tem_emprestimo_emprestimos by done. eauto.
  - intros Hx Hs. rewrite tem_emprestimo_iff. intros [i Hi].
    rewrite emprestimo_insert in Hi. case_decide as Heq.
    + injection Heq as -> ->. congruence.
    + apply (Hb a x Hx Hs). apply tem_emprestimo_iff. by exists i.
  - intros Hx Hs. rewrite tem_emprestimo_iff. intros [i Hi].
    rewrite emprestimo_delete in Hi. case_decide as Heq;
      [by destruct Hi|].
    apply (Hb a x Hx Hs). apply tem_emprestimo_iff. by exists i.
Qed.

(** X3: in a session started on no files a borrower whose [banido] is
    ['Sim'] holds no loan: loans are only made to borrowers who are not
    banned, and a borrower is only banned while holding none. *)
Theorem sessao_inicial_banidos (b : Biblioteca) (fs : files) :
  sessao_inicial b fs → banidos_sem_emprestimos b.
Proof.
  unfold sessao_inicial. induction 1 as [|c b fs out b' fs' _ IH Hex].
  - intros a x. simpl. by rewrite lookup_empty.
  - apply executar_transicao in Hex as [(-> & _)|([->|Ht] & _)]; try done.
    by eapply transicao_banidos.
Qed.

Lemma roteiro_banimento_alcancavel :
  sessao_inicial sessao_banimento.1 sessao_banimento.2.
Proof.
  eapply executar_todos_alcancavel with (cs := roteiro_banimento);
    [apply alcancavel_inicio|].
  vm_compute. reflexivity.
Qed.

Lemma sessao_inicial_banidos_witness :
  (Aluno.banido <$> alunos sessao_banimento.1 !! "S2") = Some "Sim"
  ∧ banidos_sem_emprestimos sessao_banimento.1.
Proof.
  split; [by_compute|].
  exact (sessao_inicial_banidos sessao_banimento.1 sessao_banimento.2
           roteiro_banimento_alcancavel).
Defined.

(** ** Memory and disk *)

(** X4: between two commands of a session started on files of complete
    rows that load, the files on disk load to exactly the state in
    memory whenever every cell written for that state is within the
    field size limit of [csv.reader]: every command that changes the
    state saves it in full before returning, and the others touch
    neither.  Ending the process between two commands and starting
    again then loses nothing. *)
Theorem sessao_disco_em_dia (b : Biblioteca) (fs : files) :
  sessao b fs → cabe b → _carregar_dados fs = Some b.
Proof.
  intros (b0 & fs0 & Hrows & Hload & Hs).
  induction Hs as [|c b fs out b' fs' Hs IH Hex]; intros Hcabe; [done|].
  assert (Hc : chaves b ∧ sem_vazios b ∧ disco_coerente b fs).
  { apply sessao_coerente. by exists b0, fs0. }
  apply executar_transicao in Hex as [(-> & -> & _)|(Hb & -> & _)];
    [by apply IH|].
  assert (Hc' : chaves b' ∧ sem_vazios b' ∧ disco_coerente b' fs).
  { destruct Hb as [->|Ht]; [done|].
    eapply mutacao_coerente; [|done]. by apply transicao_mutacao. }
  destruct Hc' as (? & ? & ?). by apply carregar_salvar.
Qed.

Lemma sessao_disco_em_dia_witness :
  _carregar_dados sessao_banimento.2 = Some sessao_banimento.1.
Proof.
  apply (sessao_disco_em_dia sessao_banimento.1 sessao_banimento.2
           (sessao_inicial_sessao _ _ roteiro_banimento_alcancavel)).
  by_decide.
Defined.

Lemma arquivos_distintos :
  LIVROS_FILE ≠ ALUNOS_FILE ∧ LIVROS_FILE ≠ EMPRESTIMOS_FILE
  ∧ ALUNOS_FILE ≠ EMPRESTIMOS_FILE.
Proof. done. Qed.

(** X5: [salvar_dados] writes its three files and no other, always
    writes the ledger file, and saving twice in a row leaves the files of
    the first save. *)
Theorem salvar_dados_idempotente (b : Biblioteca) (fs : files) :
  salvar_dados b (salvar_dados b fs).2 = salvar_dados b fs
  ∧ (∀ nome,
       nome ≠ LIVROS_FILE → nome ≠ ALUNOS_FILE → nome ≠ EMPRESTIMOS_FILE →
       (salvar_dados b fs).2 !! nome = fs !! nome)
  ∧ (salvar_dados b fs).2 !! EMPRESTIMOS_FILE
    = Some (EMPRESTIMOS_HEADER :: emprestimos_data (emprestimos b)).
Proof.
  destruct arquivos_distintos as (Hla & Hle & Hae).
  unfold salvar_dados. cbn [snd]. split; [|split].
  - f_equal. apply map_eq. intros nome.
    destruct (decide (livros b = ∅)), (decide (alunos b = ∅));
      rewrite ?lookup_insert; repeat case_decide; congruence.
  - intros nome Hl Ha He.
    destruct (decide (livros b = ∅)), (decide (alunos b = ∅));
      by rewrite ?lookup_insert_ne by done.
  - apply lookup_insert_eq.
Qed.

(** X6: with no book in memory [salvar_dados] leaves the catalog file
    as it is, and with no borrower the roster file; so when such a file
    holds records, loading after the save brings them back and does not
    give the state that was saved. *)
Theorem salvar_dados_colecao_vazia (b : Biblioteca) (fs : files) :
  (livros b = ∅ →
   (salvar_dados b fs).2 !! LIVROS_FILE = fs !! LIVROS_FILE
   ∧ ∀ ls,
       carregar_arquivo carregar_livros LIVROS_FILE fs = Some ls →
       ls ≠ ∅ →
       _carregar_dados (salvar_dados b fs).2 ≠ Some b)
  ∧ (alunos b = ∅ →
     (salvar_dados b fs).2 !! ALUNOS_FILE = fs !! ALUNOS_FILE
     ∧ ∀ als,
         carregar_arquivo carregar_alunos ALUNOS_FILE fs = Some als →
         als ≠ ∅ →
         _carregar_dados (salvar_dados b fs).2 ≠ Some b).
Proof.
  destruct arquivos_distintos as (Hla & Hle & Hae).
  split; intros Hempty.
  - assert (Hsame : (salvar_dados b fs).2 !! LIVROS_FILE = fs !! LIVROS_FILE).
    { unfold salvar_dados. cbn [snd]. rewrite lookup_insert_ne by done.
      rewrite (decide_True (P := livros b = ∅)) by done.
      case_decide; by rewrite ?lookup_insert_ne by done. }
    split; [done|]. intros ls Hls Hne.
    unfold _carregar_dados, carregar_arquivo in *. rewrite Hsame, Hls. simpl.
    destruct (match _ !! ALUNOS_FILE with Some _ => _ | None => _ end);
      [|done]. simpl.
    destruct (match _ !! EMPRESTIMOS_FILE with Some _ => _ | None => _ end);
      [|done]. simpl.
    intros [= <-]. simpl in Hempty. done.
  - assert (Hsame : (salvar_dados b fs).2 !! ALUNOS_FILE = fs !! ALUNOS_FILE).
    { unfold salvar_dados. cbn [snd]. rewrite lookup_insert_ne by done.
      rewrite (decide_True (P := alunos b = ∅)) by done.
      case_decide; by rewrite ?lookup_insert_ne by done. }
    split; [done|]. intros als Hals Hne.
    unfold _carregar_dados, carregar_arquivo in *. rewrite Hsame, Hals.
    destruct (match _ !! LIVROS_FILE with Some _ => _ | None => _ end);
      [|done]. simpl.
    destruct (match _ !! EMPRESTIMOS_FILE with Some _ => _ | None => _ end);
      [|done]. simpl.
    intros [= <-]. simpl in Hempty. done.
Qed.

Lemma salvar_dados_colecao_vazia_witness :
  _carregar_dados (salvar_dados vazia arquivos_emprestimo).2 ≠ Some vazia.
Proof.
  destruct (salvar_dados_colecao_vazia vazia arquivos_emprestimo)
    as [Hl _].
  destruct (Hl eq_refl) as [_ Hload].
  apply (Hload (livros emprestado_B1_S1)); [by_compute|].
  intros Hempty. by apply (f_equal (fun m => m !! "B1")) in Hempty.
Defined.

(** ** Calls in sequence *)

(** X7: banning an active borrower who holds no loan and then lifting the
    ban gives back the state in memory as it was before the two calls;
    in between, every loan to that borrower is refused as
    BorrowerSuspended, whatever the book. *)
Theorem banir_desbanir_restaura (aluno_id : string) (aluno : Aluno.t)
    (b : Biblioteca) (fs : files) :
  alunos b !! aluno_id = Some aluno →
  Aluno.banido aluno = "Não" →
  ¬ tem_emprestimo aluno_id b →
  ∃ out1 b1 fs1 out2 fs2,
    banir_aluno aluno_id b fs = Done out1 b1 fs1
    ∧ (∀ agora isbn,
         is_Some (livros b !! isbn) →
         erros (emprestar_livro agora isbn aluno_id b1 fs1)
         = [BorrowerSuspended])
    ∧ desbanir_aluno aluno_id b1 fs1 = Done out2 b fs2.
Proof.
  intros Ha Hativo Hsem.
  unfold banir_aluno. rewrite Ha, decide_False by done.
  rewrite salvar_e_retornar_eq. eexists _, _, _, _, _.
  split; [done|]. split.
  - intros agora isbn [livro Hl]. unfold emprestar_livro. simpl.
    rewrite Hl, lookup_insert_eq. by rewrite decide_True.
  - unfold desbanir_aluno. simpl. rewrite lookup_insert_eq.
    rewrite salvar_e_retornar_eq. f_equal.
    rewrite insert_insert_eq.
    replace (Aluno.set_banido "Não" (Aluno.set_banido "Sim" aluno))
      with aluno by (destruct aluno; simpl in *; by subst).
    rewrite insert_id by done. by destruct b.
Qed.

Lemma banir_desbanir_restaura_witness :
  ∃ out1 b1 fs1 out2 fs2,
    banir_aluno "S1" acervo_B1_S1 ∅ = Done out1 b1 fs1
    ∧ erros (emprestar_livro (relogio_fixo 0) "B1" "S1" b1 fs1)
      = [BorrowerSuspended]
    ∧ desbanir_aluno "S1" b1 fs1 = Done out2 acervo_B1_S1 fs2.
Proof.
  destruct (banir_desbanir_restaura "S1" aluno_S1 acervo_B1_S1 ∅)
    as (out1 & b1 & fs1 & out2 & fs2 & Hban & Hemp & Hdes);
    [by_compute..| |].
  - intros (i & x & Hi & _). revert Hi. by_compute.
  - exists out1, b1, fs1, out2, fs2. split; [done|]. split; [|done].
    apply Hemp. by_compute.
Defined.

(** X8: a loan followed by the return of the same pair gives back the
    state in memory as it was before the loan (catalog counts, roster
    and ledger), at whatever moment the return is made, late or not. *)
Theorem emprestar_devolver_restaura
    (agora agora' : nat → Z) (isbn aluno_id : string)
    (b : Biblioteca) (fs : files) (livro : Livro.t) (aluno : Aluno.t) :
  livros b !! isbn = Some livro →
  alunos b !! aluno_id = Some aluno →
  Aluno.banido aluno ≠ "Sim" →
  0 < Livro.copias_disponiveis livro →
  emprestimo isbn aluno_id b = None →
  emprestimos b !! isbn ≠ Some ∅ →
  Datetime.valid (agora 1%nat + DIAS_EMPRESTIMO * Datetime.US_PER_DAY) →
  ∃ out1 b1 fs1 out2 fs2,
    emprestar_livro agora isbn aluno_id b fs = Done out1 b1 fs1
    ∧ emprestimo isbn aluno_id b1
      = Some (Datetime.strftime (agora 0%nat),
              Datetime.strftime
                (agora 1%nat + DIAS_EMPRESTIMO * Datetime.US_PER_DAY))
    ∧ devolver_livro agora' isbn aluno_id b1 fs1 = Done out2 b fs2.
Proof.
  intros Hl Ha Hb Hc He Hne Hv.
  unfold emprestar_livro. rewrite Hl, Ha.
  rewrite decide_False by done.
  rewrite decide_False by lia.
  rewrite decide_False by (rewrite He; apply is_Some_None).
  unfold Datetime.add_days. rewrite decide_True by done.
  rewrite salvar_e_retornar_eq. eexists _, _, _, _, _.
  split; [done|].
  split; [rewrite emprestimo_insert; by rewrite decide_True|].
  unfold devolver_livro.
  rewrite emprestimo_insert, decide_True by done. cbn [snd].
  rewrite strptime_strftime by done. simpl livros. simpl alunos.
  rewrite lookup_insert_eq, Ha. rewrite salvar_e_retornar_eq. f_equal.
  simpl emprestimos. rewrite lookup_insert_eq. simpl default.
  assert (Hinner : default ∅ (emprestimos b !! isbn) !! aluno_id = None).
  { unfold emprestimo in He. by destruct (emprestimos b !! isbn). }
  rewrite delete_insert_id by done.
  rewrite insert_insert_eq.
  replace (Livro.set_copias_disponiveis
             (Livro.copias_disponiveis
                (Livro.set_copias_disponiveis
                   (Livro.copias_disponiveis livro - 1) livro) + 1)
             (Livro.set_copias_disponiveis
                (Livro.copias_disponiveis livro - 1) livro))
    with livro
    by (destruct livro; unfold Livro.set_copias_disponiveis; simpl;
        f_equal; lia).
  rewrite insert_id by done.
  destruct (emprestimos b !! isbn) as [inner|] eqn:Hi; simpl.
  - rewrite decide_False by congruence.
    rewrite insert_insert_eq, insert_id by done. by destruct b.
  - rewrite decide_True by done.
    rewrite delete_insert_id by done. by destruct b.
Qed.

Lemma emprestar_devolver_restaura_witness :
  ∃ out1 b1 fs1 out2 fs2,
    emprestar_livro (relogio_fixo (Datetime.at_time 2024 3 1 10 30))
                    "B1" "S1" acervo_B1_S1 ∅
    = Done out1 b1 fs1
    ∧ devolver_livro (relogio_fixo (Datetime.at_time 2024 3 20 8 0))
                     "B1" "S1" b1 fs1
      = Done out2 acervo_B1_S1 fs2.
Proof.
  destruct (emprestar_devolver_restaura
              (relogio_fixo (Datetime.at_time 2024 3 1 10 30))
              (relogio_fixo (Datetime.at_time 2024 3 20 8 0))
              "B1" "S1" acervo_B1_S1 ∅ livro_B1 aluno_S1)
    as (out1 & b1 & fs1 & out2 & fs2 & H1 & _ & H2);
    [by_compute..|].
  by exists out1, b1, fs1, out2, fs2.
Defined.

(** X9: right after a loan, asking for the same loan again is always
    refused: as NoCopiesAvailable when the loan took the last copy, and
    as AlreadyHolding only when copies remain. *)
Theorem emprestar_livro_duas_vezes
    (agora agora' : nat → Z) (isbn aluno_id : string)
    (b b1 : Biblioteca) (fs fs1 : files) (out : list msg) (livro : Livro.t) :
  livros b !! isbn = Some livro →
  emprestar_livro agora isbn aluno_id b fs = Done out b1 fs1 →
  erros (emprestar_livro agora isbn aluno_id b fs) = [] →
  erros (emprestar_livro agora' isbn aluno_id b1 fs1)
  = [if decide (Livro.copias_disponiveis livro = 1)
     then NoCopiesAvailable else AlreadyHolding].
Proof.
  intros Hl Hex Herr. rewrite Hex in Herr.
  assert (Hex' : executar (Emprestar agora isbn aluno_id) b fs
                 = Done out b1 fs1) by done.
  apply executar_transicao in Hex' as [(_ & _ & Hns)|(Hb & _ & Hs)].
  { exfalso. revert Hex Herr Hns. unfold emprestar_livro. rewrite Hl.
    destruct (alunos b !! aluno_id); [|by intros [= <- <- <-]].
    repeat case_decide; try by intros [= <- <- <-].
    destruct (Datetime.add_days _ _); [|done].
    rewrite salvar_e_retornar_eq. intros [= <- <- <-] _ Hns.
    apply Hns. apply list_elem_of_In. simpl. auto. }
  revert Hex. unfold emprestar_livro at 1. rewrite Hl.
  destruct (alunos b !! aluno_id) as [aluno|] eqn:Ha;
    [|intros [= <- <- <-]; by rewrite <- Herr].
  destruct (decide (Aluno.banido aluno = "Sim"));
    [intros [= <- <- <-]; simpl in Herr; done|].
  destruct (decide (Livro.copias_disponiveis livro <= 0));
    [intros [= <- <- <-]; simpl in Herr; done|].
  destruct (decide (is_Some (emprestimo isbn aluno_id b)));
    [intros [= <- <- <-]; simpl in Herr; done|].
  destruct (Datetime.add_days _ _) as [venc|]; [|done].
  rewrite salvar_e_retornar_eq. intros [= <- <- <-].
  unfold emprestar_livro. simpl livros. simpl alunos.
  rewrite lookup_insert_eq, Ha. rewrite decide_False by done.
  simpl Livro.copias_disponiveis.
  destruct (decide (Livro.copias_disponiveis livro = 1)) as [H1|H1].
  - by rewrite decide_True by lia.
  - rewrite decide_False by lia. rewrite emprestimo_insert.
    rewrite (decide_True (P := (isbn, aluno_id) = (isbn, aluno_id))) by done.
    by rewrite decide_True by eauto.
Qed.

Lemma emprestar_livro_duas_vezes_witness :
  erros (emprestar_livro (relogio_fixo (Datetime.at_time 2024 3 2 9 0))
                         "B1" "S1" emprestado_B1_S1
                         (salvar_dados emprestado_B1_S1 ∅).2)
  = [NoCopiesAvailable].
Proof.
  exact (emprestar_livro_duas_vezes
           (relogio_fixo (Datetime.at_time 2024 3 1 10 30))
           (relogio_fixo (Datetime.at_time 2024 3 2 9 0))
           "B1" "S1" acervo_B1_S1 emprestado_B1_S1 ∅
           (salvar_dados emprestado_B1_S1 ∅).2
           [Emprestado "Dom Casmurro" "Ana";
            DevolucaoPrevista "2024-03-08"; Salvando; DadosSalvos]
           livro_B1 ltac:(by_compute) ltac:(by_compute) ltac:(by_compute)).
Defined.

(** ** Loading files written by hand *)

(** The catalog file read row by row: each row is stored under its own
    [isbn], over whatever an earlier row stored there. *)
Lemma carregar_livros_registros (ls : list Livro.t) :
  carregar_livros (Livro.fieldnames :: (Livro.to_row <$> ls))
  = Some (foldl (fun m l => <[Livro.isbn l := l]> m) ∅ ls).
Proof.
  unfold carregar_livros.
  rewrite DictReader_rows
    by (apply Forall_fmap, Forall_true; intros l; by split).
  simpl. rewrite <- list_fmap_compose.
  assert (Hfold : ∀ (rs : list Livro.t) (acc : gmap string Livro.t),
             foldl (fun acc row =>
                      m ← acc; l ← Livro.from_kwargs row;
                      Some (<[row !!! "isbn" := l]> m))
                   (Some acc)
                   ((fun r => list_to_map
                                (reverse (zip Livro.fieldnames (Livro.to_row r))))
                    <$> rs)
             = Some (foldl (fun m l => <[Livro.isbn l := l]> m) acc rs)).
  { induction rs as [|l rs IH]; intros acc; [done|].
    cbn [fmap list_fmap foldl mbind option_bind] in *.
    destruct (livro_from_kwargs_to_row l) as [-> ->].
    cbn [mbind option_bind]. apply IH. }
  apply Hfold.
Qed.

(** X10: when livros.csv holds several rows with the same isbn, the
    record loaded under that isbn is the last of them; every row's isbn
    is a key of the catalog loaded and every key comes from a row. *)
Theorem carregar_livros_ultima_linha (ls1 ls2 : list Livro.t) (l : Livro.t) :
  Forall (fun l' => Livro.isbn l' ≠ Livro.isbn l) ls2 →
  ∃ m,
    carregar_livros
      (Livro.fieldnames :: (Livro.to_row <$> ls1 ++ l :: ls2))
    = Some m
    ∧ m !! Livro.isbn l = Some l
    ∧ ∀ k, is_Some (m !! k) ↔ ∃ l', l' ∈ ls1 ++ l :: ls2 ∧ Livro.isbn l' = k.
Proof.
  intros Hls2. rewrite carregar_livros_registros. eexists. split; [done|].
  split.
  - rewrite foldl_app. simpl.
    set (acc := foldl _ ∅ ls1). clearbody acc.
    assert (Hacc : <[Livro.isbn l := l]> acc !! Livro.isbn l = Some l)
      by apply lookup_insert_eq.
    revert Hacc. generalize (<[Livro.isbn l := l]> acc). clear acc.
    induction Hls2 as [|l' ls2 Hne _ IH]; intros acc Hacc; [done|].
    simpl. apply IH. by rewrite lookup_insert_ne.
  - intros k. generalize (ls1 ++ l :: ls2). clear. intros ls.
    assert (Hgen : ∀ acc : gmap string Livro.t,
               is_Some (foldl (fun m l0 => <[Livro.isbn l0 := l0]> m) acc ls
                        !! k)
               ↔ is_Some (acc !! k) ∨ ∃ l', l' ∈ ls ∧ Livro.isbn l' = k).
    { induction ls as [|l0 ls IH]; intros acc; simpl.
      - split; [auto|]. intros [?|(? & []%elem_of_nil & _)]. done.
      - rewrite IH, lookup_insert_is_Some. split.
        + intros [[<-|[_ ?]]|(l' & Hin & Hk)]; [right|by left|right].
          * exists l0. split; [apply elem_of_cons; by left|done].
          * exists l'. split; [apply elem_of_cons; by right|done].
        + intros [?|(l' & [->|Hin]%elem_of_cons & Hk)].
          * destruct (decide (Livro.isbn l0 = k)); auto.
          * auto.
          * right. by exists l'. }
    rewrite Hgen, lookup_empty. split; [intros [[? [=]]|?]; done|auto].
Qed.

Lemma carregar_livros_ultima_linha_witness :
  ∃ m,
    carregar_livros
      [Livro.fieldnames;
       ["Dom Casmurro"; "Machado de Assis"; "B1"; "1"; "1"];
       ["Quincas Borba"; "Machado de Assis"; "B1"; "3"; "2"]]
    = Some m
    ∧ m !! "B1" = Some (Livro.mk "Quincas Borba" "Machado de Assis" "B1" 3 2).
Proof.
  destruct (carregar_livros_ultima_linha
              [livro_B1] []
              (Livro.mk "Quincas Borba" "Machado de Assis" "B1" 3 2))
    as (m & Hm & Hl & _); [by constructor|].
  by exists m.
Defined.

Lemma aluno_from_kwargs_sem_banido (i n : string) :
  let row : gmap string string :=
    list_to_map (reverse (zip ["aluno_id"; "nome"] [i; n])) in
  Aluno.from_kwargs row = Some (Aluno.mk i n "Não")
  ∧ row !!! "aluno_id" = i.
Proof. split; vm_compute; reflexivity. Qed.

(** X11: a roster file whose header names only [aluno_id] and [nome]
    loads, and every borrower it holds comes out active ([banido] is
    ['Não']), under the identifier of its row. *)
Theorem carregar_alunos_sem_banido (ps : list (string * string)) :
  ∃ m,
    carregar_alunos
      (["aluno_id"; "nome"] :: ((fun p => [p.1; p.2]) <$> ps))
    = Some m
    ∧ (∀ k a, m !! k = Some a →
              Aluno.banido a = "Não" ∧ Aluno.aluno_id a = k
              ∧ (k, Aluno.nome a) ∈ ps)
    ∧ (∀ p, p ∈ ps → is_Some (m !! p.1)).
Proof.
  unfold carregar_alunos.
  rewrite DictReader_rows
    by (apply Forall_fmap, Forall_true; intros p; by split).
  simpl. rewrite <- list_fmap_compose.
  assert (Hgen : ∀ acc : gmap string Aluno.t,
             ∃ m,
               foldl (fun acc row =>
                        m ← acc; a ← Aluno.from_kwargs row;
                        Some (<[row !!! "aluno_id" := a]> m))
                     (Some acc)
                     ((fun p : string * string =>
                         list_to_map
                           (reverse (zip ["aluno_id"; "nome"] [p.1; p.2])))
                      <$> ps)
               = Some m
               ∧ (∀ k a, m !! k = Some a →
                         acc !! k = Some a
                         ∨ (Aluno.banido a = "Não" ∧ Aluno.aluno_id a = k
                            ∧ (k, Aluno.nome a) ∈ ps))
               ∧ (∀ k, is_Some (acc !! k) → is_Some (m !! k))
               ∧ (∀ p, p ∈ ps → is_Some (m !! p.1))).
  { induction ps as [|[i n] ps IH]; intros acc.
    - exists acc. repeat split; auto. by intros ? []%elem_of_nil.
    - cbn [fmap list_fmap foldl mbind option_bind fst snd].
      destruct (aluno_from_kwargs_sem_banido i n) as [-> ->].
      cbn [mbind option_bind].
      destruct (IH (<[i := Aluno.mk i n "Não"]> acc))
        as (m & -> & Hm & Hacc & Hps).
      exists m. split; [done|]. split; [|split].
      + intros k a Hk. destruct (Hm k a Hk) as [Hins|(? & ? & ?)].
        * rewrite lookup_insert in Hins. case_decide; [|by left].
          injection Hins as <-. right. simpl. subst.
          repeat split. apply elem_of_cons. by left.
        * right. repeat split; try done. apply elem_of_cons. by right.
      + intros k Hk. apply Hacc. apply lookup_insert_is_Some.
        destruct (decide (i = k)); auto.
      + intros p [->|Hin]%elem_of_cons; [|by apply Hps].
        apply Hacc. simpl. rewrite lookup_insert_eq. eauto. }
  destruct (Hgen ∅) as (m & Hfold & Hm & _ & Hps).
  exists m. split; [etrans; [|apply Hfold]; done|]. split; [|done].
  intros k a Hk. destruct (Hm k a Hk) as [Hempty|?]; [|done].
  by rewrite lookup_empty in Hempty.
Qed.

Lemma carregar_alunos_sem_banido_witness :
  ∃ m,
    carregar_alunos [["aluno_id"; "nome"]; ["S1"; "Ana"]; ["S2"; "Rui"]]
    = Some m
    ∧ is_Some (m !! "S2").
Proof.
  destruct (carregar_alunos_sem_banido [("S1", "Ana"); ("S2", "Rui")])
    as (m & Hm & _ & Hps).
  exists m. split; [done|].
  apply (Hps ("S2", "Rui")). apply elem_of_cons. right.
  apply elem_of_cons. by left.
Defined.

(** ** What the roster listing shows *)

(** X12: [listar_alunos] shows a borrower as BANIDO exactly when
    [emprestar_livro] refuses that borrower's loans as BorrowerSuspended
    (for a book of the catalog, records sitting under their own
    identifiers): what the listing says of a borrower is what the loan
    desk does. *)
Theorem listar_alunos_banido
    (agora : nat → Z) (isbn aluno_id : string) (b : Biblioteca) (fs : files) :
  chaves b →
  is_Some (livros b !! isbn) →
  (∃ nome, LinhaAluno aluno_id nome "BANIDO" ∈ listar_alunos b)
  ↔ erros (emprestar_livro agora isbn aluno_id b fs) = [BorrowerSuspended].
Proof.
  intros [_ Hka] [livro Hl]. unfold listar_alunos, emprestar_livro.
  rewrite Hl. split.
  - intros [nome Hin]. case_decide as Hempty.
    { apply list_elem_of_singleton in Hin. done. }
    apply elem_of_cons in Hin as [[=]|Hin].
    apply elem_of_app in Hin as [Hin|Hin];
      [|apply list_elem_of_singleton in Hin; done].
    apply list_elem_of_fmap in Hin as (a & Hstr & Hin).
    apply list_elem_of_fmap in Hin as ([k a'] & -> & Hin).
    apply elem_of_map_to_list in Hin. simpl in *.
    unfold Aluno_str in Hstr. injection Hstr as Hid Hnome Hst.
    rewrite (Hka _ _ Hin) in Hid. subst k. rewrite Hin.
    case_decide; [done|discriminate].
  - destruct (alunos b !! aluno_id) as [a|] eqn:Ha; [|done].
    destruct (decide (Aluno.banido a = "Sim")) as [Hban|Hban].
    + intros _. exists (Aluno.nome a).
      rewrite decide_False by (intros He; by rewrite He in Ha).
      apply elem_of_cons. right. apply elem_of_app. left.
      apply list_elem_of_fmap. exists a. split.
      * unfold Aluno_str. rewrite decide_True by done.
        by rewrite (Hka _ _ Ha).
      * apply list_elem_of_fmap. exists (aluno_id, a).
        split; [done|]. by apply elem_of_map_to_list.
    + intros Herr. exfalso. revert Herr.
      destruct (decide (Livro.copias_disponiveis livro <= 0)); [done|].
      destruct (decide (is_Some (emprestimo isbn aluno_id b))); [done|].
      destruct (Datetime.add_days _ _); [|done].
      by rewrite erros_salvar_e_retornar.
Qed.

Lemma listar_alunos_banido_witness :
  (∃ nome, LinhaAluno "S2" nome "BANIDO" ∈ listar_alunos sessao_banimento.1)
  ∧ erros (emprestar_livro (relogio_fixo 0) "B1" "S2"
                           sessao_banimento.1 sessao_banimento.2)
    = [BorrowerSuspended].
Proof.
  assert (Herr : erros (emprestar_livro (relogio_fixo 0) "B1" "S2"
                          sessao_banimento.1 sessao_banimento.2)
                 = [BorrowerSuspended]) by by_compute.
  split; [|done].
  apply (listar_alunos_banido (relogio_fixo 0) "B1" "S2"
           sessao_banimento.1 sessao_banimento.2); [| |done].
  - apply (sessao_coerente _ _
             (sessao_inicial_sessao _ _ roteiro_banimento_alcancavel)).
  - by_compute.
Defined.

(** ** The catalog listing against the loan report *)

(** The report has one entry line per ledger entry, under the entry's
    book. *)
Lemma relatorio_listados (agora : nat → Z) (b : Biblioteca) (isbn : string)
    (es : list (string * (string * (string * string)))) (k : nat)
    (linhas : list msg) :
  relatorio agora k b es = inr linhas →
  emprestimos_listados isbn linhas
  = length (filter (fun e => e.1 = isbn) es).
Proof.
  revert k linhas.
  induction es as [|[i [a datas]] es IH]; intros k linhas; simpl.
  - by intros [= <-].
  - destruct (Datetime.strptime datas.2) as [dv|]; [|done].
    destruct (livros b !! i) as [livro|]; [|done].
    destruct (alunos b !! a) as [aluno|]; [|done].
    destruct (relatorio agora _ b es) as [e|linhas'] eqn:Hrel; [done|].
    intros [= <-]. simpl. rewrite (IH _ _ Hrel).
    destruct (decide (i = isbn)) as [->|Hne].
    + by rewrite filter_cons_True.
    + by rewrite filter_cons_False.
Qed.

(** The ledger flattened holds, for each book, as many entries as the
    book's dictionary of borrowers. *)
Lemma entradas_do_livro (isbn : string) (b : Biblioteca) :
  Z.of_nat (length (filter (fun e => e.1 = isbn) (entradas b)))
  = emprestimos_do_livro isbn b.
Proof.
  unfold entradas, emprestimos_do_livro. f_equal.
  pose proof (NoDup_fst_map_to_list (emprestimos b)) as Hnd.
  assert (Hin : ∀ inner, (isbn, inner) ∈ map_to_list (emprestimos b)
                         ↔ emprestimos b !! isbn = Some inner)
    by (intros; apply elem_of_map_to_list).
  revert Hnd Hin. generalize (map_to_list (emprestimos b)).
  generalize (emprestimos b !! isbn). clear b.
  intros o l. revert o.
  induction l as [|[i inner] l IH]; intros o Hnd Hin.
  - destruct o as [inner|]; [|done].
    pose proof (proj2 (Hin inner) eq_refl) as Hnil.
    by apply elem_of_nil in Hnil.
  - apply NoDup_cons in Hnd as [Hi Hnd].
    cbn [mbind list_bind]. rewrite filter_app, length_app.
    destruct (decide (i = isbn)) as [->|Hne].
    + assert (Ho : o = Some inner)
        by (apply Hin, elem_of_cons; by left).
      subst o. simpl.
      rewrite (IH None Hnd).
      * rewrite Nat.add_0_r.
        assert (Hall : ∀ es : list (string * (string * string)),
                   filter (fun e : string * (string * (string * string)) =>
                             e.1 = isbn)
                          ((fun e => (isbn, e)) <$> es)
                   = (fun e => (isbn, e)) <$> es).
        { induction es as [|e es IHes]; [done|].
          cbn [fmap list_fmap]. rewrite filter_cons_True by done.
          f_equal. apply IHes. }
        rewrite Hall, length_fmap. simpl. apply length_map_to_list.
      * intros inner'. split; [|done]. intros Hin'.
        exfalso. apply Hi. apply list_elem_of_fmap.
        by exists (isbn, inner').
    + assert (Hnone : ∀ es : list (string * (string * string)),
                 filter (fun e : string * (string * (string * string)) =>
                           e.1 = isbn)
                        ((fun e => (i, e)) <$> es)
                 = []).
      { induction es as [|e es IHes]; [done|].
        cbn [fmap list_fmap]. rewrite filter_cons_False by done.
        apply IHes. }
      rewrite Hnone. simpl. apply IH; [done|].
      intros inner'. rewrite <- Hin. rewrite elem_of_cons.
      split; [auto|]. intros [[= ? _]|?]; done.
Qed.

(** X13: in a session started on no files the catalog listing and the
    loan report agree: [listar_emprestimos] goes through, and for every
    book line of [listar_livros] the copies shown as available are not
    negative and those missing from the total are as many as the entry
    lines the report prints for that isbn; every book of the catalog has
    its line. *)
Theorem listagens_concordam (agora : nat → Z) (b : Biblioteca) (fs : files) :
  sessao_inicial b fs →
  ∃ out,
    listar_emprestimos agora b fs = Done out b fs
    ∧ (∀ titulo autor isbn disponiveis total,
         LinhaLivro titulo autor isbn disponiveis total ∈ listar_livros b →
         0 <= disponiveis
         ∧ total - disponiveis = Z.of_nat (emprestimos_listados isbn out))
    ∧ (∀ isbn livro,
         livros b !! isbn = Some livro →
         LinhaLivro (Livro.titulo livro) (Livro.autor livro) isbn
                    (Livro.copias_disponiveis livro)
                    (Livro.total_copias livro)
         ∈ listar_livros b).
Proof.
  intros Hs.
  destruct (sessao_inicial_contabilidade b fs Hs) as [[Hc _] Hp].
  destruct (sessao_coerente b fs (sessao_inicial_sessao b fs Hs))
    as [[Hkl _] _].
  pose proof (sessao_inicial_referencias b fs Hs) as Hr.
  assert (Hout : ∃ out,
             listar_emprestimos agora b fs = Done out b fs
             ∧ ∀ isbn, Z.of_nat (emprestimos_listados isbn out)
                       = emprestimos_do_livro isbn b).
  { unfold listar_emprestimos. case_decide as Hempty.
    - exists [NenhumEmprestimo]. split; [done|]. intros isbn.
      unfold emprestimos_do_livro. by rewrite Hempty, lookup_empty.
    - destruct (relatorio_inr agora b (entradas b) 0)
        as (linhas & Hrel & _).
      { apply Forall_forall. intros [isbn [aluno_id datas]] Hin.
        apply elem_of_entradas in Hin. by apply Hr. }
      rewrite Hrel. eexists. split; [done|]. intros isbn.
      rewrite <- entradas_do_livro,
        <- (relatorio_listados agora b isbn _ _ _ Hrel).
      f_equal. simpl. generalize linhas. clear.
      induction linhas as [|m linhas IH]; [done|].
      destruct m; simpl; by rewrite ?IH. }
  destruct Hout as (out & Hout & Hn). exists out. split; [done|]. split.
  - intros titulo autor isbn d tot Hin. unfold listar_livros in Hin.
    case_decide as Hempty.
    { by apply list_elem_of_singleton in Hin. }
    apply elem_of_cons in Hin as [[=]|Hin].
    apply elem_of_app in Hin as [Hin|Hin];
      [|by apply list_elem_of_singleton in Hin].
    apply list_elem_of_fmap in Hin as (l & Hstr & Hin).
    apply list_elem_of_fmap in Hin as ([k l'] & -> & Hin).
    apply elem_of_map_to_list in Hin. simpl in *.
    injection Hstr as -> -> Hisbn -> ->.
    rewrite (Hkl _ _ Hin) in Hisbn. subst k.
    pose proof (Hp _ _ Hin) as Hpos.
    rewrite Hn. rewrite (Hc _ _ Hin) in Hpos |- *. split; [done|lia].
  - intros isbn livro Hl. unfold listar_livros.
    rewrite decide_False by (intros He; by rewrite He in Hl).
    apply elem_of_cons. right. apply elem_of_app. left.
    apply list_elem_of_fmap. exists livro. split.
    + unfold Livro_str. by rewrite (Hkl _ _ Hl).
    + apply list_elem_of_fmap. exists (isbn, livro).
      split; [done|]. by apply elem_of_map_to_list.
Qed.

Lemma listagens_concordam_witness :
  ∃ out,
    listar_emprestimos (relogio_fixo 0) emprestado_B1_S1 arquivos_emprestimo
    = Done out emprestado_B1_S1 arquivos_emprestimo
    ∧ emprestimos_listados "B1" out = 1%nat.
Proof.
  destruct (listagens_concordam (relogio_fixo 0) emprestado_B1_S1
              arquivos_emprestimo roteiro_emprestimo_alcancavel)
    as (out & Hout & _ & _).
  exists out. split; [exact Hout|].
  vm_compute in Hout. injection Hout as <-. reflexivity.
Defined.

(** ** Ledger entries without their records *)

(** The report stops with an exception at the first entry it cannot
    print, at the latest at one whose book or borrower is missing. *)
Lemma relatorio_inl (agora : nat → Z) (b : Biblioteca)
    (isbn aluno_id : string) (datas : string * string)
    (es : list (string * (string * (string * string)))) (k : nat) :
  (isbn, (aluno_id, datas)) ∈ es →
  livros b !! isbn = None ∨ alunos b !! aluno_id = None →
  ∃ e, relatorio agora k b es = inl e.
Proof.
  intros Hin Hnone. revert k.
  induction es as [|[i [a d]] es IH]; intros k.
  { by apply elem_of_nil in Hin. }
  simpl. destruct (Datetime.strptime d.2) as [dv|]; [|by eauto].
  apply elem_of_cons in Hin as [[= <- <- <-]|Hin].
  - destruct Hnone as [->| ->]; [by eauto|].
    destruct (livros b !! isbn); by eauto.
  - destruct (livros b !! i); [|by eauto].
    destruct (alunos b !! a); [|by eauto].
    destruct (IH Hin (match checar_atraso (agora k) (agora (S k)) dv with
                      | EmDia => S k
                      | Atrasado _ => S (S k)
                      end)) as [e ->].
    by eauto.
Qed.

(** X14: nothing checks the ledger against the catalog and the roster
    when the files are loaded; with a ledger entry whose book or whose
    borrower is not on record, [devolver_livro] of that pair ends in an
    exception, whatever the clock, and so does [listar_emprestimos], for
    the whole report. *)
Theorem emprestimo_sem_registro_excecao
    (agora : nat → Z) (isbn aluno_id : string) (datas : string * string)
    (b : Biblioteca) (fs : files) :
  emprestimo isbn aluno_id b = Some datas →
  livros b !! isbn = None ∨ alunos b !! aluno_id = None →
  (∃ e, devolver_livro agora isbn aluno_id b fs = Raised e)
  ∧ (∃ e, listar_emprestimos agora b fs = Raised e).
Proof.
  intros He Hnone. split.
  - unfold devolver_livro. rewrite He.
    destruct (Datetime.strptime datas.2); [|by eauto].
    destruct Hnone as [->| ->]; [by eauto|].
    destruct (livros b !! isbn); by eauto.
  - unfold listar_emprestimos.
    rewrite decide_False.
    + destruct (relatorio_inl agora b isbn aluno_id datas (entradas b) 0)
        as [e ->]; [by apply elem_of_entradas|done|by eauto].
    + intros Hempty. unfold emprestimo in He.
      by rewrite Hempty, lookup_empty in He.
Qed.

Lemma emprestimo_sem_registro_excecao_witness :
  ∃ b,
    _carregar_dados arquivos_orfaos = Some b
    ∧ (∃ e, devolver_livro (relogio_fixo 0) "B9" "S9" b arquivos_orfaos
            = Raised e)
    ∧ (∃ e, listar_emprestimos (relogio_fixo 0) b arquivos_orfaos
            = Raised e).
Proof.
  eexists. split; [vm_compute; reflexivity|].
  apply (emprestimo_sem_registro_excecao
           (relogio_fixo 0) "B9" "S9" ("2024-03-01", "2024-03-08"));
    [vm_compute; reflexivity|left; vm_compute; reflexivity].
Defined.
